(** * Goodreads scraper: discovery, extraction and the CSV pipeline

    A shallow embedding of [scripts/.py] (the Selenium scraper) and the
    properties of its two stages.

    Conventions of the embedding:
    - a Python [str] is a [string]; a character of the model is a code point
      below 256, and the character classes ([str.isspace], [str.isdigit],
      [str.lower], what [int] accepts) are Python's on that range;
    - a Python [int] is a [Z];
    - an exception is a value of [exn]; code that can raise returns a
      [result], and [try]/[except] is a match on it;
    - the browser is data: a [WebDriver] answers every call the code makes,
      with a value or with an exception;
    - the output file and the browser session are followed through a trace
      of [event]s; opening the file, writing to it and starting the browser
      are taken to succeed, so that the exceptions of a run are those of the
      pages and of the code itself; calls to [logger] only print and are
      left out. *)

From Stdlib Require Import ZArith String Ascii List Lia.
From stdpp Require Import base decidable option list gmap strings pretty.

Open Scope string_scope.
Open Scope list_scope.
Open Scope Z_scope.

(** ** Exceptions and results *)

(** The exception classes the code can meet; every one of them is a subclass
    of [Exception], and [TimeoutException] is the one the first handler of
    [get_goodreads_book_data] names. *)
Inductive exn : Type :=
  | TimeoutException
  | NoSuchElementException
  | WebDriverException
  | ValueError
  | TypeError
  | AttributeError
  | IndexError.

Inductive result (A : Type) : Type :=
  | Return (a : A)
  | Raise (e : exn).
Arguments Return {A} a.
Arguments Raise {A} e.

Global Instance result_ret : MRet result := @Return.
Global Instance result_bind : MBind result := fun A B f m =>
  match m with
  | Return a => f a
  | Raise e => Raise e
  end.

Definition is_Return {A} (r : result A) : bool :=
  match r with Return _ => true | Raise _ => false end.

(** ** Python strings *)

Module Str.

Definition code (c : ascii) : N := N_of_ascii c.

Definition between (lo hi : N) (c : ascii) : bool :=
  ((lo <=? code c) && (code c <=? hi))%N.

(** [str.isspace] on one character: TAB..CR, FS..US, space, NEL, NBSP. *)
Definition isspace (c : ascii) : bool :=
  between 9 13 c || between 28 32 c || (code c =? 133)%N || (code c =? 160)%N.

(** The digits [int] accepts. *)
Definition isdecimal (c : ascii) : bool := between 48 57 c.

(** [str.isdigit] on one character: the decimal digits and the superscripts
    two, three and one (U+00B2, U+00B3, U+00B9). *)
Definition isdigit_char (c : ascii) : bool :=
  isdecimal c || (code c =? 178)%N || (code c =? 179)%N || (code c =? 185)%N.

(** [s.isdigit()]: true when [s] is not empty and all its characters are
    digits. *)
Fixpoint all_digits (s : string) : bool :=
  match s with
  | EmptyString => true
  | String c s' => isdigit_char c && all_digits s'
  end.
Definition isdigit (s : string) : bool :=
  match s with
  | EmptyString => false
  | _ => all_digits s
  end.

Definition lower_char (c : ascii) : ascii :=
  if between 65 90 c || (between 192 222 c && negb (code c =? 215)%N)
  then ascii_of_N (code c + 32)
  else c.

(** [s.lower()] *)
Fixpoint lower (s : string) : string :=
  match s with
  | EmptyString => EmptyString
  | String c s' => String (lower_char c) (lower s')
  end.

Fixpoint lstrip (s : string) : string :=
  match s with
  | EmptyString => EmptyString
  | String c s' => if isspace c then lstrip s' else s
  end.

(** [s.strip()] *)
Definition strip (s : string) : string :=
  String.rev (lstrip (String.rev (lstrip s))).

(** [sub in s] *)
Fixpoint contains (sub s : string) : bool :=
  String.prefix sub s ||
  match s with
  | EmptyString => false
  | String _ s' => contains sub s'
  end.

(** [s.split(sep)] for a separator that is not empty: [skip] counts the
    characters of a separator just matched that are still to be passed,
    [cur] is the piece being read, in reverse. *)
Fixpoint split_go (sep : string) (skip : nat) (cur : string) (s : string)
  : list string :=
  match s with
  | EmptyString => [String.rev cur]
  | String c s' =>
      match skip with
      | S k => split_go sep k cur s'
      | O =>
          if String.prefix sep s
          then String.rev cur :: split_go sep (String.length sep - 1) "" s'
          else split_go sep O (String c cur) s'
      end
  end.
Definition split (sep s : string) : list string := split_go sep O "" s.

(** [s.split()]: the maximal runs of characters that are not whitespace. *)
Fixpoint split_ws_go (cur : string) (s : string) : list string :=
  match s with
  | EmptyString =>
      match cur with EmptyString => [] | _ => [String.rev cur] end
  | String c s' =>
      if isspace c
      then match cur with
           | EmptyString => split_ws_go "" s'
           | _ => String.rev cur :: split_ws_go "" s'
           end
      else split_ws_go (String c cur) s'
  end.
Definition split_ws (s : string) : list string := split_ws_go "" s.

(** [sep.join(l)] *)
Definition join (sep : string) (l : list string) : string :=
  String.concat sep l.

(** [s.replace(old, new)] for an [old] that is not empty. *)
Definition replace (old new s : string) : string := join new (split old s).

(** [l[i]] on a list, with Python's [IndexError] out of range (the code
    only uses indices that are not negative). *)
Definition getitem {A} (l : list A) (i : nat) : result A :=
  match l !! i with
  | Some x => Return x
  | None => Raise IndexError
  end.

(** *** [int(s)]

    CPython turns NEL and NBSP into spaces, skips the whitespace TAB..CR
    and space on both sides, reads an optional sign and then decimal
    digits, where single underscores may stand between two digits. A
    literal of more than [int_max_str_digits] digits is refused with
    [ValueError] (the default of [sys.get_int_max_str_digits()]); leading
    zeros count as digits, the sign, the underscores and the whitespace do
    not. *)
Definition int_space (c : ascii) : bool :=
  between 9 13 c || (code c =? 32)%N || (code c =? 133)%N || (code c =? 160)%N.

Fixpoint lstrip_int (s : string) : string :=
  match s with
  | EmptyString => EmptyString
  | String c s' => if int_space c then lstrip_int s' else s
  end.

Fixpoint all_int_space (s : string) : bool :=
  match s with
  | EmptyString => true
  | String c s' => int_space c && all_int_space s'
  end.

Definition digit_val (c : ascii) : Z := Z.of_N (code c) - 48.

(** What follows a digit; [acc] is the value read so far. *)
Fixpoint int_digits (acc : Z) (s : string) : option Z :=
  match s with
  | EmptyString => Some acc
  | String c s' =>
      if isdecimal c then int_digits (acc * 10 + digit_val c) s'
      else if (code c =? 95)%N then
        match s' with
        | String d s'' =>
            if isdecimal d then int_digits (acc * 10 + digit_val d) s''
            else None
        | EmptyString => None
        end
      else if all_int_space s then Some acc
      else None
  end.

Definition int_unsigned (s : string) : option Z :=
  match s with
  | String d s' => if isdecimal d then int_digits (digit_val d) s' else None
  | EmptyString => None
  end.

Definition int_max_str_digits : Z := 4300.

(** The number of decimal digits in [s]. *)
Fixpoint count_decimal (s : string) : Z :=
  match s with
  | EmptyString => 0
  | String c s' => (if isdecimal c then 1 else 0) + count_decimal s'
  end.

Definition int (s : string) : result Z :=
  let s1 := lstrip_int s in
  let '(sign, s2) :=
    match s1 with
    | String c r =>
        if (code c =? 43)%N then (1, r)
        else if (code c =? 45)%N then (-1, r)
        else (1, s1)
    | EmptyString => (1, s1)
    end in
  match int_unsigned s2 with
  | Some v =>
      if int_max_str_digits <? count_decimal s2 then Raise ValueError
      else Return (sign * v)
  | None => Raise ValueError
  end.

End Str.

(** ** The browser *)

Inductive By : Type := CSS_SELECTOR | XPATH | TAG_NAME.

(** An element as the code reads it: its [text] and its attributes
    ([get_attribute] answers [None] for an attribute that is not there). *)
Record WebElement : Type := {
  text : string;
  get_attribute : string -> option string
}.

(** What the browser answers while it is on one page. The waits take their
    timeout in seconds and raise [TimeoutException] when it runs out:
    [wait_presence t by sel] is
    [WebDriverWait(driver, t).until(EC.presence_of_element_located((by, sel)))],
    [wait_clickable] the same for [EC.element_to_be_clickable], and
    [wait_ready t] waits for [document.readyState] to be ["complete"]. *)
Record Page : Type := {
  find_elements : By -> string -> result (list WebElement);
  find_element : By -> string -> result WebElement;
  wait_presence : Z -> By -> string -> result unit;
  wait_clickable : Z -> By -> string -> result WebElement;
  wait_ready : Z -> result unit;
  execute_script : string -> option WebElement -> result unit
}.

(** [driver.get(url)] either raises or leaves the browser on a page. *)
Record WebDriver : Type := {
  get : string -> result Page
}.

(** ** Configuration

    The part of [config.yaml] selected by [CONFIG_NAME]: the file is not part
    of the sources, so its entries are parameters of the development. *)
Record Config : Type := {
  urls_books : string;
  urls_book_details : string;
  selectors_book_title : string;
  selectors_genre : string;
  selectors_author : string;
  selectors_rating : string;
  selectors_rating_meta : string;
  selectors_show_more : string;
  selectors_tag_p : string;
  selectors_book_link : string;
  headers_user_agent : string;
  output_fieldnames : list string;
  output_csv_path : string
}.

(** Python's floats, as far as the scraper uses them: [float(s)] on a string,
    which raises [ValueError] when [s] does not denote a number. *)
Class PyFloatOps : Type := {
  PyFloat : Type;
  float_of_str : string -> result PyFloat
}.

(** ** The scraper *)

Section Scraper.

Context `{PyFloatOps}.
Variable CONFIG : Config.

Definition BOOKS_URL : string := urls_books CONFIG.
Definition BOOK_DETAILS_URL : string := urls_book_details CONFIG.
Definition BOOK_PAGE_SELECTOR : string := selectors_book_title CONFIG.
Definition GENRE_SELECTOR : string := selectors_genre CONFIG.
Definition AUTHOR_SELECTOR : string := selectors_author CONFIG.
Definition RATING_SELECTOR : string := selectors_rating CONFIG.
Definition RATING_META_SELECTOR : string := selectors_rating_meta CONFIG.
Definition SHOW_MORE_XPATH : string := selectors_show_more CONFIG.
Definition TAG_P : string := selectors_tag_p CONFIG.
Definition BOOK_LINK_SELECTOR : string := selectors_book_link CONFIG.
Definition CSV_FIELDNAMES : list string := output_fieldnames CONFIG.
Definition OUTPUT_CSV_PATH : string := output_csv_path CONFIG.

(** The values the code stores in a record. *)
Inductive value : Type :=
  | VNone
  | VStr (s : string)
  | VInt (z : Z)
  | VFloat (f : PyFloat)
  | VList (l : list string).

Definition truthy (s : string) : bool :=
  match s with EmptyString => false | _ => true end.

Definition of_attr (o : option string) : value :=
  match o with Some s => VStr s | None => VNone end.

Definition safe_get_text (driver : Page) (by_ : By) (selector : string)
    (attr : string) (multiple : bool) : result value :=
  elements ←
    (if multiple then find_elements driver by_ selector
     else el ← find_element driver by_ selector; mret [el]);
  if bool_decide (attr = "text") then
    if multiple then
      mret (VList (filter (fun s => truthy s) (map (fun el => Str.strip (text el)) elements)))
    else
      el ← Str.getitem elements 0;
      mret (VStr (Str.strip (text el)))
  else
    if multiple then
      mret (VList (filter (fun s => truthy s) (omap (fun el => get_attribute el attr) elements)))
    else
      el ← Str.getitem elements 0;
      mret (of_attr (get_attribute el attr)).

Definition wait_scroll_and_expand (driver : Page) : result unit :=
  _ ← wait_presence driver 10 CSS_SELECTOR BOOK_PAGE_SELECTOR;
  _ ← execute_script driver "window.scrollTo(0, document.body.scrollHeight);" None;
  _ ← wait_ready driver 5;
  match
    (more_button ← wait_clickable driver 3 XPATH SHOW_MORE_XPATH;
     execute_script driver "arguments[0].click();" (Some more_button))
  with
  | Return _ => Return tt
  | Raise _ => Return tt
  end.

(** [sep.join(v)]: a list is joined, a string is joined character by
    character, anything else is not iterable. *)
Fixpoint chars (s : string) : list string :=
  match s with
  | EmptyString => []
  | String c s' => String c "" :: chars s'
  end.

Definition join_value (sep : string) (v : value) : result string :=
  match v with
  | VList l => Return (Str.join sep l)
  | VStr s => Return (Str.join sep (chars s))
  | _ => Raise TypeError
  end.

(** [float(v)] *)
Definition float (v : value) : result PyFloat :=
  match v with
  | VStr s => float_of_str s
  | VFloat f => Return f
  | _ => Raise TypeError
  end.

(** [int(rating_text.split("ratings")[0].strip().replace(",", ""))] *)
Definition parse_ratings_count (rating_text : value) : result Z :=
  match rating_text with
  | VStr s =>
      head ← Str.getitem (Str.split "ratings" s) 0;
      Str.int (Str.replace "," "" (Str.strip head))
  | _ => Raise AttributeError
  end.

(** The loop over the [p] elements. *)
Fixpoint scan_pages (p_tags : list WebElement) : result value :=
  match p_tags with
  | [] => Return VNone
  | p :: rest =>
      let text := Str.lower (Str.strip (text p)) in
      if Str.contains "pages" text then
        tok ← Str.getitem (Str.split_ws text) 0;
        n ← Str.int tok;
        mret (VInt n)
      else scan_pages rest
  end.

(** The body of the [try] of [get_goodreads_book_data]. *)
Definition get_goodreads_book_data_try (driver : WebDriver) (url : string)
  : result (gmap string value) :=
  page ← get driver url;
  _ ← wait_scroll_and_expand page;
  genres ← safe_get_text page CSS_SELECTOR GENRE_SELECTOR "text" true;
  title ← safe_get_text page CSS_SELECTOR BOOK_PAGE_SELECTOR "text" false;
  authors ← safe_get_text page CSS_SELECTOR AUTHOR_SELECTOR "text" true;
  author ← join_value ", " authors;
  rating_str ← safe_get_text page CSS_SELECTOR RATING_SELECTOR "text" false;
  rating ← float rating_str;
  rating_text ← safe_get_text page CSS_SELECTOR RATING_META_SELECTOR "text" false;
  ratings_count ← parse_ratings_count rating_text;
  p_tags ← find_elements page TAG_NAME TAG_P;
  pages ← scan_pages p_tags;
  mret (<["title" := title]> (<["author" := VStr author]> (<["rating" := VFloat rating]>
       (<["genres" := genres]> (<["pages" := pages]>
       (<["ratings_count" := VInt ratings_count]> ∅)))))).

(** [isinstance(e, TimeoutException)] and [isinstance(e, Exception)]. *)
Definition is_TimeoutException (e : exn) : bool :=
  match e with TimeoutException => true | _ => false end.
Definition is_Exception (e : exn) : bool := true.

Definition get_goodreads_book_data (driver : WebDriver) (url : string)
  : result (gmap string value) :=
  match get_goodreads_book_data_try driver url with
  | Return d => Return d
  | Raise e =>
      if is_TimeoutException e then Return ∅
      else if is_Exception e then Return ∅
      else Raise e
  end.

(** *** Discovery *)

(** The [for link in links] loop of one listing page; it stops (the
    [break]) as soon as [book_ids] holds [max_books] identifiers. *)
Fixpoint scan_links (links : list WebElement) (book_ids : list Z)
    (max_books : Z) : result (list Z) :=
  match links with
  | [] => Return book_ids
  | link :: rest =>
      match get_attribute link "href" with
      | None => Raise TypeError
      | Some href =>
          if Str.contains "/book/show/" href then
            after ← Str.getitem (Str.split "/book/show/" href) 1;
            book_id_part ← Str.getitem (Str.split "." after) 0;
            if Str.isdigit book_id_part then
              n ← Str.int book_id_part;
              if bool_decide (n ∈@{list Z} book_ids) then scan_links rest book_ids max_books
              else
                let book_ids' := book_ids ++ [n] in
                if max_books <=? Z.of_nat (length book_ids') then Return book_ids'
                else scan_links rest book_ids' max_books
            else scan_links rest book_ids max_books
          else scan_links rest book_ids max_books
      end
  end.

Definition listing_url (page : Z) : string :=
  BOOKS_URL +:+ "?page=" +:+ pretty page.

(** One turn of the [while] loop. *)
Definition visit_page (driver : WebDriver) (max_books : Z)
    (book_ids : list Z) (page : Z) : result (list Z) :=
  p ← get driver (listing_url page);
  _ ← wait_ready p 10;
  links ← find_elements p CSS_SELECTOR BOOK_LINK_SELECTOR;
  scan_links links book_ids max_books.

(** The [while len(book_ids) < max_books] loop, with [fuel] turns at most:
    [None] says that the loop is still running when the fuel is spent. *)
Fixpoint while_pages (fuel : nat) (driver : WebDriver) (max_books : Z)
    (book_ids : list Z) (page : Z) : option (result (list Z)) :=
  if Z.of_nat (length book_ids) <? max_books then
    match fuel with
    | O => None
    | S fuel' =>
        match visit_page driver max_books book_ids page with
        | Raise e => Some (Raise e)
        | Return book_ids' =>
            while_pages fuel' driver max_books book_ids' (page + 1)
        end
    end
  else Some (Return book_ids).

Definition get_top_goodreads_book_ids (fuel : nat) (driver : WebDriver)
    (max_books : Z) : option (result (list Z)) :=
  while_pages fuel driver max_books [] 1.

(** *** The pipeline *)

(** What a run does to the output file and to the browser session, and the
    moments ([EExtract]) at which it takes up an identifier and calls
    [get_goodreads_book_data] on its address. A row is the list of the cells
    handed to the [csv] writer, before they are turned into text. *)
Inductive event : Type :=
  | EOpen (path : string)
  | EWriteHeader (fieldnames : list string)
  | EInitDriver
  | EExtract (url : string)
  | EWriteRow (row : list value)
  | EFlush
  | EQuit
  | EClose.

(** A run either is still going when the fuel is spent, or has ended, by
    returning or by raising, after the events of [trace]. *)
Inductive run (A : Type) : Type :=
  | Running
  | Ended (trace : list event) (r : result A).
Arguments Running {A}.
Arguments Ended {A} trace r.

Definition run_bind {A B} (f : A -> run B) (m : run A) : run B :=
  match m with
  | Running => Running
  | Ended tr (Raise e) => Ended tr (Raise e)
  | Ended tr (Return a) =>
      match f a with
      | Running => Running
      | Ended tr' r => Ended (tr ++ tr') r
      end
  end.

Global Instance run_mret : MRet run := fun A a => Ended [] (Return a).
Global Instance run_mbind : MBind run := @run_bind.

Definition emit (e : event) : run unit := Ended [e] (Return tt).

Definition lift {A} (r : result A) : run A := Ended [] r.

Definition lift_fuel {A} (o : option (result A)) : run A :=
  match o with
  | None => Running
  | Some r => Ended [] r
  end.

(** [with open(path, mode="w") as file: body]: the file is closed when the
    body ends, however it ends. *)
Definition with_open {A} (path : string) (body : run A) : run A :=
  match body with
  | Running => Running
  | Ended tr r => Ended (EOpen path :: tr ++ [EClose]) r
  end.

(** [csv.DictWriter.writerow]: keys of the row that are no field names raise
    [ValueError], a field name that is no key of the row gives the empty
    string. *)
Definition restval : value := VStr "".

Definition writerow (fieldnames : list string) (rowdict : gmap string value)
  : result (list value) :=
  if bool_decide (dom rowdict ⊆ list_to_set fieldnames)
  then Return (map (fun key => default restval (rowdict !! key)) fieldnames)
  else Raise ValueError.

(** [BOOK_DETAILS_URL.format(book_id=book_id)], for a template whose only
    replacement field is [{book_id}]. *)
Definition details_url (book_id : Z) : string :=
  Str.replace "{book_id}" (pretty book_id) BOOK_DETAILS_URL.

(** [info.get(key)] *)
Definition dict_get (info : gmap string value) (key : string) : value :=
  default VNone (info !! key).

(** [if isinstance(info.get("genres"), list): info["genres"] = ", ".join(...)] *)
Definition flatten_genres (info : gmap string value) : gmap string value :=
  match dict_get info "genres" with
  | VList l => <["genres" := VStr (Str.join ", " l)]> info
  | _ => info
  end.

(** The [for i, book_id in enumerate(ids, 1)] loop. *)
Fixpoint for_each_book (driver : WebDriver) (ids : list Z) : run unit :=
  match ids with
  | [] => mret tt
  | book_id :: rest =>
      let url := details_url book_id in
      _ ← emit (EExtract url);
      info ← lift (get_goodreads_book_data driver url);
      let info := flatten_genres info in
      row ← lift (writerow CSV_FIELDNAMES info);
      _ ← emit (EWriteRow row);
      _ ← emit EFlush;
      for_each_book driver rest
  end.

Definition main (fuel : nat) (driver : WebDriver) : run unit :=
  with_open OUTPUT_CSV_PATH
    (_ ← emit (EWriteHeader CSV_FIELDNAMES);
     _ ← emit EInitDriver;
     ids ← lift_fuel (get_top_goodreads_book_ids fuel driver 150);
     _ ← for_each_book driver ids;
     emit EQuit).

(** *** What a run writes

    The notions the statements about the pipeline are written with. *)

Definition trace_of {A} (r : run A) : list event :=
  match r with
  | Running => []
  | Ended tr _ => tr
  end.

Definition rows_of (tr : list event) : list (list value) :=
  omap (fun e => match e with EWriteRow row => Some row | _ => None end) tr.

(** Every row of the trace is followed at once by a flush. *)
Definition flush_per_row (tr : list event) : Prop :=
  forall i row, tr !! i = Some (EWriteRow row) -> tr !! S i = Some EFlush.

(** The shape of what the loop leaves in the trace: for every identifier the
    call, the row and the flush; the call alone for an identifier at which
    the writer raised. *)
Inductive loop_trace : list event -> Prop :=
  | loop_trace_nil : loop_trace []
  | loop_trace_raise url : loop_trace [EExtract url]
  | loop_trace_row url row tr :
      loop_trace tr -> loop_trace (EExtract url :: EWriteRow row :: EFlush :: tr).

(** The keys of a record that was extracted in full. *)
Definition record_keys : list string :=
  ["title"; "author"; "rating"; "genres"; "pages"; "ratings_count"].

(** The record of a book, empty when its extraction failed, and the row the
    writer makes of it. *)
Definition record_of (driver : WebDriver) (book_id : Z) : gmap string value :=
  match get_goodreads_book_data_try driver (details_url book_id) with
  | Return d => d
  | Raise _ => ∅
  end.

Definition book_row (driver : WebDriver) (book_id : Z) : list value :=
  map (fun key => default restval (flatten_genres (record_of driver book_id) !! key))
    CSV_FIELDNAMES.

Definition empty_row : list value := map (fun _ => restval) CSV_FIELDNAMES.

(** Whether the text of a [p] element, stripped and lowercased, contains the
    marker of the page count. *)
Definition has_marker (p : WebElement) : bool :=
  Str.contains "pages" (Str.lower (Str.strip (text p))).

(** *** What a listing shows

    The notions the statements about discovery are written with. *)

(** What the [for] loop does with one link, before it looks at [book_ids]:
    it raises, passes the link over ([None]) or reads an identifier. *)
Definition link_step (link : WebElement) : result (option Z) :=
  match get_attribute link "href" with
  | None => Raise TypeError
  | Some href =>
      if Str.contains "/book/show/" href then
        after ← Str.getitem (Str.split "/book/show/" href) 1;
        book_id_part ← Str.getitem (Str.split "." after) 0;
        if Str.isdigit book_id_part then
          n ← Str.int book_id_part;
          mret (Some n)
        else mret None
      else mret None
  end.

(** The identifier a link shows, if it shows one. *)
Definition link_id (link : WebElement) : option Z :=
  match link_step link with
  | Return o => o
  | Raise _ => None
  end.

(** The links of listing page [page], when the page is served. *)
Definition page_links (driver : WebDriver) (page : Z)
  : result (list WebElement) :=
  p ← get driver (listing_url page);
  _ ← wait_ready p 10;
  find_elements p CSS_SELECTOR BOOK_LINK_SELECTOR.

(** The identifiers of listing page [page], in the order of its links. *)
Definition page_ids (driver : WebDriver) (page : Z) : list Z :=
  match page_links driver page with
  | Return links => omap link_id links
  | Raise _ => []
  end.

(** The identifiers of pages [1] to [k], in the order they are met. *)
Fixpoint stream (driver : WebDriver) (k : nat) : list Z :=
  match k with
  | O => []
  | S k' => stream driver k' ++ page_ids driver (Z.of_nat (S k'))
  end.

(** A listing that serves every page, with links the loop can read. *)
Definition serves (driver : WebDriver) : Prop :=
  forall page : Z, 1 <= page ->
    exists links, page_links driver page = Return links
      /\ Forall (fun link => is_Return (link_step link) = true) links.

End Scraper.

Arguments VNone {_}.
Arguments VStr {_} s.
Arguments VInt {_} z.
Arguments VFloat {_} f.
Arguments VList {_} l.
Arguments Running {_ A}.
Arguments Ended {_ A} trace r.
Arguments EOpen {_} path.
Arguments EWriteHeader {_} fieldnames.
Arguments EInitDriver {_}.
Arguments EExtract {_} url.
Arguments EWriteRow {_} row.
Arguments EFlush {_}.
Arguments EQuit {_}.
Arguments EClose {_}.

(** ** First-seen order *)

(** [first_seen l] keeps, of every value of [l], the first occurrence. *)
Fixpoint first_seen (l : list Z) : list Z :=
  match l with
  | [] => []
  | x :: l' => x :: filter (fun y => y <> x) (first_seen l')
  end.

(** The same, the way the loop builds it: [seen] grows at its end by every
    value that is not in it yet. *)
Fixpoint add_new (seen l : list Z) : list Z :=
  match l with
  | [] => seen
  | x :: l' =>
      if bool_decide (x ∈ seen) then add_new seen l'
      else add_new (seen ++ [x]) l'
  end.

(** ** A small site

    Concrete pages and browsers, for the examples. *)

Module Demo.

Definition config : Config := {|
  urls_books := "https://www.goodreads.com/list/show/1.Best_Books_Ever";
  urls_book_details := "https://www.goodreads.com/book/show/{book_id}";
  selectors_book_title := "h1[data-testid='bookTitle']";
  selectors_genre := "span.BookPageMetadataSection__genreButton";
  selectors_author := "span.ContributorLink__name";
  selectors_rating := "div.RatingStatistics__rating";
  selectors_rating_meta := "div.RatingStatistics__meta";
  selectors_show_more := "//button[@aria-label='Show all items in the list']";
  selectors_tag_p := "p";
  selectors_book_link := "a.bookTitle";
  headers_user_agent := "Mozilla/5.0";
  output_fieldnames :=
    ["title"; "author"; "rating"; "genres"; "pages"; "ratings_count"];
  output_csv_path := "data/db.csv"
|}.

(** A stand-in for Python's floats: a number is kept as the text it was read
    from, and the texts read are those made of digits and dots. *)
Fixpoint digits_and_dots (s : string) : bool :=
  match s with
  | EmptyString => true
  | String c s' =>
      (Str.isdecimal c || (Str.code c =? 46)%N) && digits_and_dots s'
  end.

Global Instance float_ops : PyFloatOps := {|
  PyFloat := string;
  float_of_str := fun s =>
    if truthy s && digits_and_dots s then Return s else Raise ValueError
|}.

Definition element (text : string) (href : option string) : WebElement := {|
  text := text;
  get_attribute := fun attr => if bool_decide (attr = "href") then href else None
|}.

(** A page that does not change: an element is found when it is there, the
    waits for it end at once or run out of time, the scripts run. *)
Definition static_page (dom : By -> string -> list WebElement) : Page := {|
  find_elements := fun by_ selector => Return (dom by_ selector);
  find_element := fun by_ selector =>
    match dom by_ selector with
    | el :: _ => Return el
    | [] => Raise NoSuchElementException
    end;
  wait_presence := fun _ by_ selector =>
    match dom by_ selector with
    | _ :: _ => Return tt
    | [] => Raise TimeoutException
    end;
  wait_clickable := fun _ by_ selector =>
    match dom by_ selector with
    | el :: _ => Return el
    | [] => Raise TimeoutException
    end;
  wait_ready := fun _ => Return tt;
  execute_script := fun _ _ => Return tt
|}.

Definition listing (hrefs : list (option string)) : Page :=
  static_page (fun by_ selector =>
    match by_ with
    | CSS_SELECTOR =>
        if bool_decide (selector = selectors_book_link config)
        then map (element "") hrefs else []
    | _ => []
    end).

Definition book_href (book_id : Z) : option string :=
  Some ("https://www.goodreads.com/book/show/" +:+ pretty book_id +:+ ".Title").

Definition detail (title rating rating_meta : string)
    (authors genres paragraphs : list string) : Page :=
  let els := map (fun s => element s None) in
  static_page (fun by_ selector =>
    match by_ with
    | CSS_SELECTOR =>
        if bool_decide (selector = selectors_book_title config) then els [title]
        else if bool_decide (selector = selectors_genre config) then els genres
        else if bool_decide (selector = selectors_author config) then els authors
        else if bool_decide (selector = selectors_rating config) then els [rating]
        else if bool_decide (selector = selectors_rating_meta config)
        then els [rating_meta]
        else []
    | TAG_NAME =>
        if bool_decide (selector = selectors_tag_p config) then els paragraphs
        else []
    | XPATH => []
    end).

(** Four detail pages and a page on which the title never appears. *)
Definition dune : Page :=
  detail "Dune" "4.27" "12,345 ratings" ["Frank Herbert"]
    ["Science Fiction"; "Classics"] ["A desert planet."; "352 pages"].

Definition paperback : Page :=
  detail "Emma" "4.05" "12,345 ratings" ["Jane Austen"]
    ["Classics"] ["Paperback, 352 pages"].

Definition one_rating : Page :=
  detail "Pamphlet" "5.00" "1 rating" ["A. Nonymous"] [] ["352 pages"].

Definition poems : Page :=
  detail "Poems" "3.90" "87 ratings" ["Anon"] ["Poetry"] ["A slim volume."].

Definition blank : Page := static_page (fun _ _ => []).

Definition listing_1 : Page :=
  listing [book_href 1; Some "https://www.goodreads.com/author/show/58";
           book_href 2; book_href 3; book_href 1;
           Some "https://www.goodreads.com/book/show/new";
           book_href 4; book_href 5].

Definition listing_2 : Page :=
  listing [book_href 3; book_href 6; book_href 7; book_href 8; book_href 9].

(** A site of two listing pages; the detail pages of books 1 to 4 are there,
    those of the other books never show a title. *)
Definition site : WebDriver := {|
  get := fun url =>
    if bool_decide (url = listing_url config 1) then Return listing_1
    else if bool_decide (url = listing_url config 2) then Return listing_2
    else if bool_decide (url = details_url config 1) then Return dune
    else if bool_decide (url = details_url config 2) then Return paperback
    else if bool_decide (url = details_url config 3) then Return one_rating
    else if bool_decide (url = details_url config 4) then Return poems
    else Return blank
|}.

(** A site that answers every address with the same listing of five books. *)
Definition mirror : WebDriver := {| get := fun _ => Return listing_1 |}.

(** A site that answers every listing address with one page of 150 books. *)
Definition megastore : WebDriver := {|
  get := fun url =>
    if bool_decide (url = details_url config 1) then Return dune
    else if bool_decide (url = details_url config 2) then Return paperback
    else if bool_decide (url = details_url config 3) then Return one_rating
    else if String.prefix (urls_books config) url
    then Return (listing (map (fun i => book_href (Z.of_nat i)) (seq 1 150)))
    else Return blank
|}.

(** A listing whose second link has no [href]. *)
Definition broken : WebDriver := {|
  get := fun _ =>
    Return (listing [Some "https://www.goodreads.com/author/show/58"; None;
                     book_href 1])
|}.

(** A site that cannot be reached. *)
Definition offline : WebDriver := {|
  get := fun _ => Raise WebDriverException
|}.

End Demo.

(** ** Notions on strings

    Used in the statements on what the code reads and writes. *)

(** [s.rstrip()], the second half of [s.strip()]. *)
Definition rstrip (s : string) : string :=
  String.rev (Str.lstrip (String.rev s)).

(** Whether [s] is made of whitespace. *)
Fixpoint all_space (s : string) : bool :=
  match s with
  | EmptyString => true
  | String c s' => Str.isspace c && all_space s'
  end.

(** The number of occurrences of a character. *)
Fixpoint count_char (x : ascii) (s : string) : nat :=
  match s with
  | EmptyString => O
  | String c s' => (if bool_decide (x = c) then 1 else 0) + count_char x s'
  end.

(** Whether [s] is made of the digits [0] to [9]. *)
Fixpoint all_decimal (s : string) : bool :=
  match s with
  | EmptyString => true
  | String c s' => Str.isdecimal c && all_decimal s'
  end.

(** The number a string of decimal digits denotes, after the digits of
    [acc]. *)
Fixpoint number (acc : Z) (s : string) : Z :=
  match s with
  | EmptyString => acc
  | String c s' => number (acc * 10 + Str.digit_val c) s'
  end.

(** [s] without the character [x]. *)
Fixpoint remove_char (x : ascii) (s : string) : string :=
  match s with
  | EmptyString => EmptyString
  | String c s' =>
      if bool_decide (x = c) then remove_char x s' else String c (remove_char x s')
  end.

(** Whether every character of [s] satisfies [P]. *)
Fixpoint all_chars (P : ascii -> bool) (s : string) : bool :=
  match s with
  | EmptyString => true
  | String c s' => P c && all_chars P s'
  end.

(** The characters of a count written with thousands separators. *)
Definition digit_or_comma (c : ascii) : bool :=
  Str.isdecimal c || bool_decide (c = ","%char).

(** ** The dashboard

    The part of [dashboard/app.py] that is plain Python: the function
    [load_data] applies to the cells of the column [genres], and the loop
    that counts the genres. What [pandas] hands over for a cell is its text,
    or the float [NaN] for a field that is empty. *)

Module Dashboard.

Inductive cell : Type :=
  | CStr (s : string)
  | CNaN.

(** [str(x)] *)
Definition str (x : cell) : string :=
  match x with
  | CStr s => s
  | CNaN => "nan"
  end.

(** [lambda x: [g.strip() for g in str(x).split(",")]] *)
Definition genres_list (x : cell) : list string :=
  map Str.strip (Str.split "," (str x)).

(** [df["genres_list"].apply(len)] on one cell *)
Definition n_genres (x : cell) : nat := length (genres_list x).

(** [genre_counts[g] = genre_counts.get(g, 0) + 1] *)
Definition count_genre (genre_counts : gmap string Z) (g : string)
  : gmap string Z :=
  <[g := default 0 (genre_counts !! g) + 1]> genre_counts.

(** The two loops over [df["genres_list"]], from [genre_counts = {}]. *)
Definition genre_counts (column : list (list string)) : gmap string Z :=
  fold_left (fun counts genre_list => fold_left count_genre genre_list counts)
    column ∅.

End Dashboard.

(** ** More of the small site *)

Module MoreDemo.
Import Demo.

(** A site whose first listing page is served and whose other pages cannot
    be loaded. *)
Definition flaky : WebDriver := {|
  get := fun url =>
    if bool_decide (url = listing_url config 1) then Return listing_1
    else Raise WebDriverException
|}.

(** The configuration with a list of field names that lacks ["pages"]. *)
Definition config_without_pages : Config := {|
  urls_books := urls_books config;
  urls_book_details := urls_book_details config;
  selectors_book_title := selectors_book_title config;
  selectors_genre := selectors_genre config;
  selectors_author := selectors_author config;
  selectors_rating := selectors_rating config;
  selectors_rating_meta := selectors_rating_meta config;
  selectors_show_more := selectors_show_more config;
  selectors_tag_p := selectors_tag_p config;
  selectors_book_link := selectors_book_link config;
  headers_user_agent := headers_user_agent config;
  output_fieldnames := ["title"; "author"; "rating"; "genres"; "ratings_count"];
  output_csv_path := output_csv_path config
|}.

(** What a complete run over [megastore] does, in order. *)
Definition megastore_trace : list event :=
  [EOpen (OUTPUT_CSV_PATH config); EWriteHeader (CSV_FIELDNAMES config);
   EInitDriver]
  ++ flat_map (fun book_id =>
       [EExtract (details_url config book_id);
        EWriteRow (book_row config megastore book_id); EFlush])
       (map Z.of_nat (seq 1 150))
  ++ [EQuit; EClose].

End MoreDemo.

(** * Properties *)

(** ** Strings: the functions on examples *)

Example split_href :
  Str.split "/book/show/" "https://www.goodreads.com/book/show/2657.To_Kill"
  = ["https://www.goodreads.com"; "2657.To_Kill"].
Proof. reflexivity. Qed.

Example split_trailing : Str.split "," "a,,b," = ["a"; ""; "b"; ""].
Proof. reflexivity. Qed.

Example split_ws_ex : Str.split_ws "  352  pages " = ["352"; "pages"].
Proof. reflexivity. Qed.

Example strip_ex : Str.strip "  12,345 " = "12,345".
Proof. reflexivity. Qed.

Example replace_ex : Str.replace "," "" "1,234,567" = "1234567".
Proof. reflexivity. Qed.

Example int_ex1 : Str.int " +1_000 " = Return 1000.
Proof. reflexivity. Qed.

Example int_ex2 : Str.int "12a" = Raise ValueError.
Proof. reflexivity. Qed.

Example int_ex3 : Str.int "1__0" = Raise ValueError.
Proof. reflexivity. Qed.

Example int_ex4 : Str.int "-42" = Return (-42).
Proof. reflexivity. Qed.

Example int_ex5 :
  is_Return (Str.int (String.concat "" (replicate 4300 "0"))) = true /\
  Str.int (String.concat "" (replicate 4301 "0")) = Raise ValueError.
Proof. vm_compute. done. Qed.

Example lower_ex : Str.lower "352 Pages" = "352 pages".
Proof. reflexivity. Qed.

(** ** First-seen order and the discovery *)

Lemma elem_of_first_seen (x : Z) (l : list Z) : x ∈ first_seen l <-> x ∈ l.
Proof.
  induction l as [|y l IH]; simpl; [done|].
  rewrite !elem_of_cons, list_elem_of_filter, IH.
  destruct (decide (x = y)); tauto.
Qed.

Lemma NoDup_first_seen (l : list Z) : NoDup (first_seen l).
Proof.
  induction l as [|y l IH]; simpl; [constructor|].
  apply NoDup_cons. split.
  - rewrite list_elem_of_filter. intros [Hy _]. by apply Hy.
  - by apply NoDup_filter.
Qed.

Lemma first_seen_snoc (l : list Z) (x : Z) :
  first_seen (l ++ [x]) =
  if bool_decide (x ∈ first_seen l) then first_seen l else first_seen l ++ [x].
Proof.
  induction l as [|y l IH]; simpl; [done|].
  rewrite IH. destruct (decide (x = y)) as [->|Hne].
  - rewrite (bool_decide_eq_true_2 (y ∈ y :: _)) by apply list_elem_of_here.
    case_bool_decide; [done|].
    rewrite filter_app, filter_cons_False, filter_nil by (intros Hy; by apply Hy).
    by rewrite app_nil_r.
  - case_bool_decide as Hin.
    + rewrite bool_decide_eq_true_2; [done|].
      apply list_elem_of_further, list_elem_of_filter. done.
    + rewrite bool_decide_eq_false_2.
      * by rewrite filter_app, filter_cons_True, filter_nil.
      * rewrite elem_of_cons, list_elem_of_filter. tauto.
Qed.

Lemma add_new_first_seen (a b : list Z) :
  add_new (first_seen a) b = first_seen (a ++ b).
Proof.
  revert a. induction b as [|x b IH]; intros a; simpl.
  - by rewrite app_nil_r.
  - replace (a ++ x :: b) with ((a ++ [x]) ++ b) by by rewrite <- app_assoc.
    rewrite <- IH, first_seen_snoc. by case_bool_decide.
Qed.

Lemma add_new_prefix (seen l : list Z) : seen `prefix_of` add_new seen l.
Proof.
  revert seen. induction l as [|x l IH]; intros seen; simpl; [done|].
  case_bool_decide; [done|].
  etrans; [|apply IH]. by apply prefix_app_r.
Qed.

Lemma take_add_new_full (seen l : list Z) (n : nat) :
  n = length seen -> take n (add_new seen l) = seen.
Proof.
  intros ->. destruct (add_new_prefix seen l) as [t ->].
  apply take_app_length.
Qed.

Section Discovery.
Context (CONFIG : Config).

Lemma scan_links_cons (link : WebElement) (rest : list WebElement)
    (book_ids : list Z) (max_books : Z) :
  scan_links (link :: rest) book_ids max_books =
  match link_step link with
  | Raise e => Raise e
  | Return None => scan_links rest book_ids max_books
  | Return (Some n) =>
      if bool_decide (n ∈ book_ids) then scan_links rest book_ids max_books
      else if max_books <=? Z.of_nat (length (book_ids ++ [n]))
           then Return (book_ids ++ [n])
           else scan_links rest (book_ids ++ [n]) max_books
  end.
Proof.
  unfold link_step. simpl.
  destruct (get_attribute link "href") as [href|]; [|done].
  destruct (Str.contains "/book/show/" href); [|done].
  destruct (Str.getitem (Str.split "/book/show/" href) 1) as [after|]; [|done].
  simpl. destruct (Str.getitem (Str.split "." after) 0) as [part|]; [|done].
  simpl. destruct (Str.isdigit part); [|done].
  by destruct (Str.int part).
Qed.

Lemma link_id_step (link : WebElement) (o : option Z) :
  link_step link = Return o -> link_id link = o.
Proof. unfold link_id. by intros ->. Qed.

(** The loop over the links of one page either raises at a link it cannot
    read, or leaves the identifiers in first-seen order, cut at the target. *)
Lemma scan_links_spec (links : list WebElement) (book_ids : list Z)
    (max_books : Z) :
  Z.of_nat (length book_ids) < max_books ->
  match scan_links links book_ids max_books with
  | Return ids =>
      ids = take (Z.to_nat max_books) (add_new book_ids (omap link_id links))
  | Raise _ => Exists (fun link => is_Return (link_step link) = false) links
  end.
Proof.
  revert book_ids. induction links as [|link rest IH]; intros book_ids Hlt.
  - simpl. rewrite take_ge; [done|lia].
  - rewrite scan_links_cons. simpl omap.
    destruct (link_step link) as [[n|]|e] eqn:Hstep.
    + rewrite (link_id_step _ _ Hstep). simpl add_new.
      case_bool_decide as Hin.
      * specialize (IH book_ids Hlt).
        destruct (scan_links rest book_ids max_books); [done|].
        by apply Exists_cons_tl.
      * destruct (Z.leb_spec max_books (Z.of_nat (length (book_ids ++ [n]))))
          as [Hge|Hlt'].
        -- symmetry. apply take_add_new_full.
           rewrite length_app in *. simpl in *. lia.
        -- specialize (IH (book_ids ++ [n]) Hlt').
           destruct (scan_links rest (book_ids ++ [n]) max_books); [done|].
           by apply Exists_cons_tl.
    + rewrite (link_id_step _ _ Hstep).
      specialize (IH book_ids Hlt).
      destruct (scan_links rest book_ids max_books); [done|].
      by apply Exists_cons_tl.
    + apply Exists_cons_hd. by rewrite Hstep.
Qed.

Lemma visit_page_links (driver : WebDriver) (max_books : Z)
    (book_ids : list Z) (page : Z) :
  visit_page CONFIG driver max_books book_ids page =
  match page_links CONFIG driver page with
  | Return links => scan_links links book_ids max_books
  | Raise e => Raise e
  end.
Proof.
  unfold visit_page, page_links.
  destruct (get driver _) as [p|]; [|done]. simpl.
  destruct (wait_ready p 10); [|done]. simpl.
  by destruct (find_elements p _ _).
Qed.

(** A turn of the [while] loop that returns has added the identifiers of its
    page. *)
Lemma visit_page_returns (driver : WebDriver) (max_books : Z) (k : nat)
    (ids : list Z) :
  Z.of_nat (length (first_seen (stream CONFIG driver k))) < max_books ->
  visit_page CONFIG driver max_books (first_seen (stream CONFIG driver k))
    (Z.of_nat (S k)) = Return ids ->
  is_Return (page_links CONFIG driver (Z.of_nat (S k))) = true /\
  ids = take (Z.to_nat max_books) (first_seen (stream CONFIG driver (S k))).
Proof.
  intros Hlt. rewrite visit_page_links. simpl stream. unfold page_ids.
  destruct (page_links CONFIG driver (Z.of_nat (S k))) as [links|]; [|done].
  intros Hscan. split; [done|].
  pose proof (scan_links_spec links _ _ Hlt) as Hspec.
  rewrite Hscan in Hspec. by rewrite <- add_new_first_seen.
Qed.

Lemma take_first_seen_lt (l : list Z) (max_books : Z) :
  Z.of_nat (length (take (Z.to_nat max_books) l)) < max_books ->
  take (Z.to_nat max_books) l = l.
Proof. rewrite length_take. intros Hlt. apply take_ge. lia. Qed.

(** The loop invariant: after [k] pages, [book_ids] is the first-seen list of
    their identifiers, cut at the target. A loop that returns has visited
    pages [1] to [k'], every one of them served, and met the target. *)
Lemma while_pages_returns (driver : WebDriver) (max_books : Z) (fuel k : nat)
    (ids : list Z) :
  (forall j, (j < k)%nat ->
     is_Return (page_links CONFIG driver (Z.of_nat (S j))) = true) ->
  while_pages CONFIG fuel driver max_books
    (take (Z.to_nat max_books) (first_seen (stream CONFIG driver k)))
    (Z.of_nat (S k)) = Some (Return ids) ->
  exists k', (k <= k' <= k + fuel)%nat /\
    (forall j, (j < k')%nat ->
       is_Return (page_links CONFIG driver (Z.of_nat (S j))) = true) /\
    ids = take (Z.to_nat max_books) (first_seen (stream CONFIG driver k')) /\
    max_books <= Z.of_nat (length ids).
Proof.
  revert k. induction fuel as [|fuel IH]; intros k Hserved.
  - simpl. destruct (Z.ltb_spec (Z.of_nat (length
      (take (Z.to_nat max_books) (first_seen (stream CONFIG driver k)))))
      max_books) as [Hlt|Hge]; [done|].
    intros [= <-]. exists k. repeat split; [lia|lia|done|lia].
  - simpl. destruct (Z.ltb_spec (Z.of_nat (length
      (take (Z.to_nat max_books) (first_seen (stream CONFIG driver k)))))
      max_books) as [Hlt|Hge].
    + pose proof (take_first_seen_lt _ _ Hlt) as Heq.
      rewrite Heq in Hlt |- *.
      destruct (visit_page CONFIG driver max_books _ _) as [ids'|e] eqn:Hv.
      2:{ intros [=]. }
      apply visit_page_returns in Hv as [Hk ->]; [|done].
      replace (Z.of_nat (S k) + 1) with (Z.of_nat (S (S k))) by lia.
      intros Hw. apply IH in Hw as (k' & Hk' & Hs & -> & Hmax).
      * exists k'. repeat split; [lia|lia|done|done].
      * intros j Hj. destruct (decide (j = k)) as [->|]; [done|].
        apply Hserved. lia.
    + intros [= <-]. exists k. repeat split; [lia|lia|done|lia].
Qed.

Lemma stream_prefix (driver : WebDriver) (k f : nat) :
  stream CONFIG driver k `prefix_of` stream CONFIG driver (k + f).
Proof.
  induction f as [|f IH].
  - by rewrite Nat.add_0_r.
  - rewrite Nat.add_succ_r. simpl. by apply prefix_app_r.
Qed.

Lemma first_seen_prefix (a b : list Z) :
  a `prefix_of` b -> first_seen a `prefix_of` first_seen b.
Proof.
  intros [t ->]. rewrite <- add_new_first_seen. apply add_new_prefix.
Qed.

(** On a listing that serves every page the loop is decided by the number of
    identifiers the pages show: it returns once they reach the target, and is
    still running before. *)
Lemma while_pages_serves (driver : WebDriver) (max_books : Z) :
  serves CONFIG driver ->
  forall fuel k : nat,
  while_pages CONFIG fuel driver max_books
    (take (Z.to_nat max_books) (first_seen (stream CONFIG driver k)))
    (Z.of_nat (S k)) =
  if bool_decide
       (max_books <= Z.of_nat (length (first_seen (stream CONFIG driver (k + fuel)))))
  then Some (Return (take (Z.to_nat max_books)
                       (first_seen (stream CONFIG driver (k + fuel)))))
  else None.
Proof.
  intros Hserves fuel. induction fuel as [|fuel IH]; intros k.
  - rewrite Nat.add_0_r. simpl.
    destruct (Z.ltb_spec (Z.of_nat (length
      (take (Z.to_nat max_books) (first_seen (stream CONFIG driver k)))))
      max_books) as [Hlt|Hge].
    + pose proof (take_first_seen_lt _ _ Hlt) as Heq. rewrite Heq in Hlt.
      rewrite bool_decide_eq_false_2; [done|lia].
    + rewrite length_take in Hge. rewrite bool_decide_eq_true_2; [done|lia].
  - simpl.
    destruct (Z.ltb_spec (Z.of_nat (length
      (take (Z.to_nat max_books) (first_seen (stream CONFIG driver k)))))
      max_books) as [Hlt|Hge].
    + pose proof (take_first_seen_lt _ _ Hlt) as Heq. rewrite Heq in Hlt |- *.
      rewrite visit_page_links.
      destruct (Hserves (Z.of_nat (S k))) as (links & Hlinks & Hok); [lia|].
      rewrite Hlinks.
      pose proof (scan_links_spec links _ _ Hlt) as Hspec.
      destruct (scan_links links _ max_books) as [ids|e].
      * subst ids. rewrite add_new_first_seen.
        replace (Z.of_nat (S k) + 1) with (Z.of_nat (S (S k))) by lia.
        assert (Hnext : stream CONFIG driver (S k) =
                  stream CONFIG driver k ++ omap link_id links).
        { simpl. unfold page_ids. by rewrite Hlinks. }
        rewrite <- Hnext, IH. by rewrite Nat.add_succ_r.
      * exfalso. apply Exists_exists in Hspec as (link & Hin & Hbad).
        rewrite Forall_forall in Hok. by rewrite (Hok link Hin) in Hbad.
    + assert (Hpre := first_seen_prefix _ _ (stream_prefix driver k (S fuel))).
      destruct Hpre as [t Ht]. rewrite Ht.
      rewrite length_take in Hge.
      rewrite bool_decide_eq_true_2 by (rewrite length_app; lia).
      destruct (decide (0 < max_books)).
      * rewrite take_app_le by lia. done.
      * replace (Z.to_nat max_books) with 0%nat by lia. done.
Qed.

(** C1. A call of [get_top_goodreads_book_ids] that returns has visited the
    listing pages [1] to [k], all of them served, and returns the identifiers
    these pages show in first-seen order, cut at [max_books]: they are
    pairwise distinct, and there are at most [max_books] of them
    ([max_books] is a count: [Z.max 0 max_books] is [max_books]). *)
Theorem discovery_first_seen (fuel : nat) (driver : WebDriver)
    (max_books : Z) (ids : list Z) :
  get_top_goodreads_book_ids CONFIG fuel driver max_books = Some (Return ids) ->
  Z.of_nat (length ids) <= Z.max 0 max_books /\
  NoDup ids /\
  exists k : nat, (k <= fuel)%nat /\
    (forall j, (j < k)%nat ->
       is_Return (page_links CONFIG driver (Z.of_nat (S j))) = true) /\
    ids = take (Z.to_nat max_books) (first_seen (stream CONFIG driver k)).
Proof.
  unfold get_top_goodreads_book_ids. intros Hrun.
  destruct (while_pages_returns driver max_books fuel 0 ids)
    as (k & Hk & Hserved & -> & Hmax).
  - intros j Hj. lia.
  - simpl. by rewrite take_nil.
  - split; [rewrite length_take; lia|]. split.
    + eapply sublist_NoDup; [apply NoDup_first_seen|apply sublist_take].
    + exists k. repeat split; [lia|done].
Qed.

(** C6. On a listing that serves every page, the loop returns exactly when
    the pages show [max_books] distinct identifiers after finitely many of
    them; when they never do, the loop is still running after any number of
    pages. *)
Theorem discovery_unbounded (driver : WebDriver) (max_books : Z) :
  serves CONFIG driver ->
  ((exists fuel ids,
      get_top_goodreads_book_ids CONFIG fuel driver max_books = Some (Return ids))
   <-> (exists k : nat,
      max_books <= Z.of_nat (length (first_seen (stream CONFIG driver k))))) /\
  ((forall k : nat,
      Z.of_nat (length (first_seen (stream CONFIG driver k))) < max_books) ->
   forall fuel, get_top_goodreads_book_ids CONFIG fuel driver max_books = None).
Proof.
  intros Hserves.
  assert (Hrun : forall fuel,
    get_top_goodreads_book_ids CONFIG fuel driver max_books =
    if bool_decide
         (max_books <= Z.of_nat (length (first_seen (stream CONFIG driver fuel))))
    then Some (Return (take (Z.to_nat max_books)
                         (first_seen (stream CONFIG driver fuel))))
    else None).
  { intros fuel. unfold get_top_goodreads_book_ids.
    pose proof (while_pages_serves driver max_books Hserves fuel 0) as Hw.
    simpl in Hw. by rewrite take_nil in Hw. }
  split; [split|].
  - intros (fuel & ids & Hret). rewrite Hrun in Hret.
    case_bool_decide; [by exists fuel|done].
  - intros (k & Hk). exists k. eexists. rewrite Hrun.
    by rewrite bool_decide_eq_true_2.
  - intros Hnever fuel. rewrite Hrun.
    rewrite bool_decide_eq_false_2; [done|]. specialize (Hnever fuel). lia.
Qed.

End Discovery.

(** ** Extraction *)

Section Extraction.
Context `{PyFloatOps} (CONFIG : Config).

(** Splits a [match] on a [result] that stands in the goal. *)
Ltac step :=
  match goal with
  | |- context [match ?m with Return _ => _ | Raise _ => _ end] =>
      destruct m eqn:?; simpl; try done
  end.

Lemma get_goodreads_book_data_cases (driver : WebDriver) (url : string) :
  get_goodreads_book_data CONFIG driver url =
  Return match get_goodreads_book_data_try CONFIG driver url with
         | Return d => d
         | Raise _ => ∅
         end.
Proof.
  unfold get_goodreads_book_data.
  destruct (get_goodreads_book_data_try CONFIG driver url) as [d|e]; [done|].
  by destruct e.
Qed.

(** A control that cannot be found or clicked does not stop the extraction. *)
Lemma show_more_is_optional (driver : Page) :
  wait_presence driver 10 CSS_SELECTOR (BOOK_PAGE_SELECTOR CONFIG) = Return tt ->
  execute_script driver "window.scrollTo(0, document.body.scrollHeight);" None
    = Return tt ->
  wait_ready driver 5 = Return tt ->
  wait_scroll_and_expand CONFIG driver = Return tt.
Proof.
  intros H1 H2 H3. unfold wait_scroll_and_expand. rewrite H1, H2, H3. simpl.
  by step.
Qed.

Lemma scan_pages_skip (pre rest : list WebElement) :
  Forall (fun q => has_marker q = false) pre ->
  scan_pages (pre ++ rest) = scan_pages rest.
Proof.
  induction 1 as [|q pre Hq _ IH]; [done|].
  simpl. unfold has_marker in Hq. by rewrite Hq.
Qed.

Lemma scan_pages_none (p_tags : list WebElement) :
  Forall (fun q => has_marker q = false) p_tags ->
  scan_pages p_tags = Return VNone.
Proof.
  intros Hno. rewrite <- (app_nil_r p_tags). by rewrite scan_pages_skip.
Qed.

Lemma scan_pages_352 (pre post : list WebElement) (p : WebElement) :
  Forall (fun q => has_marker q = false) pre ->
  text p = "352 pages" ->
  scan_pages (pre ++ p :: post) = Return (VInt 352).
Proof.
  intros Hpre Hp. rewrite scan_pages_skip by done. simpl. by rewrite Hp.
Qed.

Lemma scan_pages_not_a_number (pre post : list WebElement) (p : WebElement)
    (tok : string) :
  Forall (fun q => has_marker q = false) pre ->
  has_marker p = true ->
  Str.split_ws (Str.lower (Str.strip (text p))) !! 0%nat = Some tok ->
  Str.int tok = Raise ValueError ->
  scan_pages (pre ++ p :: post) = Raise ValueError.
Proof.
  intros Hpre Hp Htok Hint. rewrite scan_pages_skip by done. simpl.
  unfold has_marker in Hp. rewrite Hp. unfold Str.getitem. rewrite Htok. simpl.
  by rewrite Hint.
Qed.

(** What the record holds when no step raises. *)
Lemma get_goodreads_book_data_try_fields (driver : WebDriver) (url : string)
    (page : Page) (d : gmap string value) :
  get driver url = Return page ->
  get_goodreads_book_data_try CONFIG driver url = Return d ->
  exists rating_text ratings_count p_tags pages,
    safe_get_text page CSS_SELECTOR (RATING_META_SELECTOR CONFIG) "text" false
      = Return rating_text /\
    parse_ratings_count rating_text = Return ratings_count /\
    find_elements page TAG_NAME (TAG_P CONFIG) = Return p_tags /\
    scan_pages p_tags = Return pages /\
    dict_get d "ratings_count" = VInt ratings_count /\
    dict_get d "pages" = pages /\
    dom d = list_to_set record_keys.
Proof.
  unfold get_goodreads_book_data_try. intros ->.
  unfold mbind, result_bind. repeat step. intros [= <-].
  by eexists _, _, _, _.
Qed.


Lemma safe_get_text_single (page : Page) (selector : string) (el : WebElement) :
  find_element page CSS_SELECTOR selector = Return el ->
  safe_get_text page CSS_SELECTOR selector "text" false
  = Return (VStr (Str.strip (text el))).
Proof. unfold safe_get_text. by intros ->. Qed.

(** C2. [get_goodreads_book_data] returns a record for every browser and
    address, and never raises: the record is the one its [try] block built
    or, when an exception (a timeout or any other) left the block, the empty
    record. *)
Theorem get_goodreads_book_data_never_raises (driver : WebDriver)
    (url : string) :
  exists d,
    get_goodreads_book_data CONFIG driver url = Return d /\
    match get_goodreads_book_data_try CONFIG driver url with
    | Return d' => d = d'
    | Raise _ => d = ∅
    end.
Proof.
  unfold get_goodreads_book_data.
  destruct (get_goodreads_book_data_try CONFIG driver url) as [d|e].
  - by exists d.
  - exists ∅. split; [|done].
    destruct (is_TimeoutException e); [done|].
    by destruct (is_Exception e) eqn:He.
Qed.

(** C7, as amended. On a detail page whose rating-metadata text is
    ["12,345 ratings"] the count parsed from it is 12345, and the record
    returned carries it as [ratings_count] whenever no step of the
    extraction raises; when a step raises, the record returned is empty. *)
Theorem ratings_count_12345 (driver : WebDriver) (url : string) (page : Page)
    (el : WebElement) :
  get driver url = Return page ->
  find_element page CSS_SELECTOR (RATING_META_SELECTOR CONFIG) = Return el ->
  text el = "12,345 ratings" ->
  parse_ratings_count (VStr (Str.strip (text el))) = Return 12345 /\
  match get_goodreads_book_data_try CONFIG driver url with
  | Return d =>
      get_goodreads_book_data CONFIG driver url = Return d /\
      dict_get d "ratings_count" = VInt 12345
  | Raise _ => get_goodreads_book_data CONFIG driver url = Return ∅
  end.
Proof.
  intros Hget Hel Htext. split; [by rewrite Htext|].
  rewrite get_goodreads_book_data_cases.
  destruct (get_goodreads_book_data_try CONFIG driver url) as [d|e] eqn:Htry;
    [|done].
  split; [done|].
  destruct (get_goodreads_book_data_try_fields _ _ _ _ Hget Htry)
    as (rt & n & _ & _ & Hrt & Hn & _ & _ & -> & _).
  rewrite (safe_get_text_single _ _ _ Hel), Htext in Hrt.
  injection Hrt as <-. vm_compute in Hn. by injection Hn as <-.
Qed.

(** C8, as amended. When the first [p] element with the marker reads
    ["352 pages"], the page count parsed is 352, and the record returned
    carries it as [pages] whenever no step of the extraction raises (it is
    empty when one does). When no [p] element has the marker, the scan ends
    without raising, with no page count, and [pages] is absent from the
    record returned. *)
Theorem pages_352_or_absent (driver : WebDriver) (url : string) (page : Page)
    (p_tags : list WebElement) :
  get driver url = Return page ->
  find_elements page TAG_NAME (TAG_P CONFIG) = Return p_tags ->
  (forall pre p post,
     p_tags = pre ++ p :: post ->
     Forall (fun q => has_marker q = false) pre ->
     text p = "352 pages" ->
     scan_pages p_tags = Return (VInt 352) /\
     match get_goodreads_book_data_try CONFIG driver url with
     | Return d =>
         get_goodreads_book_data CONFIG driver url = Return d /\
         dict_get d "pages" = VInt 352
     | Raise _ => get_goodreads_book_data CONFIG driver url = Return ∅
     end) /\
  (Forall (fun q => has_marker q = false) p_tags ->
     scan_pages p_tags = Return VNone /\
     exists d, get_goodreads_book_data CONFIG driver url = Return d /\
       dict_get d "pages" = VNone).
Proof.
  intros Hget Hp. split.
  - intros pre p post -> Hpre Htext.
    pose proof (scan_pages_352 pre post p Hpre Htext) as Hscan.
    split; [done|]. rewrite get_goodreads_book_data_cases.
    destruct (get_goodreads_book_data_try CONFIG driver url) as [d|e] eqn:Htry;
      [|done].
    split; [done|].
    destruct (get_goodreads_book_data_try_fields _ _ _ _ Hget Htry)
      as (_ & _ & ps & v & _ & _ & Hps & Hv & _ & -> & _).
    rewrite Hp in Hps. injection Hps as <-. rewrite Hscan in Hv.
    by injection Hv as <-.
  - intros Hno. pose proof (scan_pages_none p_tags Hno) as Hscan.
    split; [done|]. rewrite get_goodreads_book_data_cases. eexists.
    split; [done|].
    destruct (get_goodreads_book_data_try CONFIG driver url) as [d|e] eqn:Htry;
      [|done].
    destruct (get_goodreads_book_data_try_fields _ _ _ _ Hget Htry)
      as (_ & _ & ps & v & _ & _ & Hps & Hv & _ & -> & _).
    rewrite Hp in Hps. injection Hps as <-. rewrite Hscan in Hv.
    by injection Hv as <-.
Qed.

(** C9. When the first [p] element whose lowercased text contains the marker
    starts with a token that [int] does not read, the record returned is the
    empty one: the title, author, rating, genres and count of ratings read
    before are dropped with it. *)
Theorem unreadable_pages_empty_record (driver : WebDriver) (url : string)
    (page : Page) (pre post : list WebElement) (p : WebElement) (tok : string) :
  get driver url = Return page ->
  find_elements page TAG_NAME (TAG_P CONFIG) = Return (pre ++ p :: post) ->
  Forall (fun q => has_marker q = false) pre ->
  has_marker p = true ->
  Str.split_ws (Str.lower (Str.strip (text p))) !! 0%nat = Some tok ->
  Str.int tok = Raise ValueError ->
  get_goodreads_book_data CONFIG driver url = Return ∅.
Proof.
  intros Hget Hp Hpre Hmark Htok Hint.
  pose proof (scan_pages_not_a_number pre post p tok Hpre Hmark Htok Hint)
    as Hscan.
  rewrite get_goodreads_book_data_cases.
  destruct (get_goodreads_book_data_try CONFIG driver url) as [d|e] eqn:Htry;
    [|done].
  destruct (get_goodreads_book_data_try_fields _ _ _ _ Hget Htry)
    as (_ & _ & ps & v & _ & _ & Hps & Hv & _).
  rewrite Hp in Hps. injection Hps as <-. by rewrite Hscan in Hv.
Qed.

End Extraction.

(** ** The pipeline *)

Section Pipeline.
Context `{PyFloatOps} (CONFIG : Config).

Lemma for_each_book_cons (driver : WebDriver) (book_id : Z) (rest : list Z) :
  for_each_book CONFIG driver (book_id :: rest) =
  match writerow (CSV_FIELDNAMES CONFIG)
          (flatten_genres (record_of CONFIG driver book_id)) with
  | Raise e => Ended [EExtract (details_url CONFIG book_id)] (Raise e)
  | Return row =>
      match for_each_book CONFIG driver rest with
      | Running => Running
      | Ended tr r =>
          Ended (EExtract (details_url CONFIG book_id)
                   :: EWriteRow row :: EFlush :: tr) r
      end
  end.
Proof.
  simpl. rewrite get_goodreads_book_data_cases. unfold record_of.
  unfold mbind, run_mbind, run_bind, lift, emit. simpl.
  destruct (writerow _ _); [|done]. simpl.
  by destruct (for_each_book CONFIG driver rest) as [|tr [[]|e]].
Qed.

Lemma dom_flatten_genres (info : gmap string value) :
  dom info ⊆ list_to_set record_keys ->
  dom (flatten_genres info) ⊆ list_to_set (C := gset string) record_keys.
Proof.
  intros Hdom. unfold flatten_genres, dict_get.
  destruct (info !! "genres") as [v|] eqn:Hg; simpl; [|done].
  destruct v; try done. by rewrite dom_insert_lookup_L.
Qed.

Lemma dom_record_of (driver : WebDriver) (book_id : Z) :
  dom (record_of CONFIG driver book_id) ⊆ list_to_set (C := gset string) record_keys.
Proof.
  unfold record_of.
  destruct (get_goodreads_book_data_try CONFIG driver _) as [d|e] eqn:Htry.
  - destruct (get driver (details_url CONFIG book_id)) as [page|] eqn:Hget.
    + destruct (get_goodreads_book_data_try_fields _ _ _ _ _ Hget Htry)
        as (_ & _ & _ & _ & _ & _ & _ & _ & _ & _ & ->). done.
    + unfold get_goodreads_book_data_try in Htry. by rewrite Hget in Htry.
  - rewrite dom_empty_L. apply empty_subseteq.
Qed.

Lemma writerow_book (driver : WebDriver) (book_id : Z) :
  Forall (fun key => key ∈ CSV_FIELDNAMES CONFIG) record_keys ->
  writerow (CSV_FIELDNAMES CONFIG)
    (flatten_genres (record_of CONFIG driver book_id))
  = Return (book_row CONFIG driver book_id).
Proof.
  intros Hfields. unfold writerow. rewrite bool_decide_eq_true_2; [done|].
  etrans; [apply dom_flatten_genres, dom_record_of|].
  intros key Hkey. apply elem_of_list_to_set in Hkey.
  apply elem_of_list_to_set. rewrite Forall_forall in Hfields. auto.
Qed.

Lemma book_row_failed (driver : WebDriver) (book_id : Z) :
  is_Return (get_goodreads_book_data_try CONFIG driver
               (details_url CONFIG book_id)) = false ->
  book_row CONFIG driver book_id = empty_row CONFIG.
Proof.
  unfold book_row, record_of, empty_row.
  destruct (get_goodreads_book_data_try CONFIG driver _); [done|]. intros _.
  apply map_ext. intros key. unfold flatten_genres, dict_get.
  by rewrite !lookup_empty.
Qed.

(** C4. When the configured field names cover the keys of a record, the loop
    over the identifiers ends normally and does, for every identifier and in
    their order, three things: it calls the extraction, writes the row of the
    record and flushes. It writes as many rows as there are identifiers, in
    their order, and the row of an identifier whose extraction failed is the
    row of empty cells, after which the loop goes on. *)
Theorem one_row_per_identifier (driver : WebDriver) (ids : list Z) :
  Forall (fun key => key ∈ CSV_FIELDNAMES CONFIG) record_keys ->
  let tr := flat_map (fun book_id =>
              [EExtract (details_url CONFIG book_id);
               EWriteRow (book_row CONFIG driver book_id); EFlush]) ids in
  for_each_book CONFIG driver ids = Ended tr (Return tt) /\
  rows_of tr = map (book_row CONFIG driver) ids /\
  length (rows_of tr) = length ids /\
  forall book_id, book_id ∈ ids ->
    is_Return (get_goodreads_book_data_try CONFIG driver
                 (details_url CONFIG book_id)) = false ->
    book_row CONFIG driver book_id = empty_row CONFIG.
Proof.
  intros Hfields tr. subst tr.
  assert (Hrows : rows_of (flat_map (fun book_id =>
            [EExtract (details_url CONFIG book_id);
             EWriteRow (book_row CONFIG driver book_id); EFlush]) ids)
          = map (book_row CONFIG driver) ids).
  { clear Hfields. induction ids as [|book_id ids IH]; simpl; [done|].
    by f_equal. }
  split; [|split; [done|split]].
  - clear Hrows. induction ids as [|book_id ids IH]; [done|].
    rewrite for_each_book_cons, writerow_book by done. by rewrite IH.
  - by rewrite Hrows, length_map.
  - intros book_id _. apply book_row_failed.
Qed.


(** The loop always ends, and what it leaves in the trace has the shape of
    [loop_trace]. *)
Lemma for_each_book_trace (driver : WebDriver) (ids : list Z) :
  exists tr r,
    for_each_book CONFIG driver ids = Ended tr r /\ loop_trace tr.
Proof.
  induction ids as [|book_id ids (tr & r & IH & Htr)].
  - exists [], (Return tt). split; [done|constructor].
  - rewrite for_each_book_cons.
    destruct (writerow _ _) as [row|e].
    + rewrite IH. eexists _, r. split; [done|]. by constructor.
    + eexists _, (Raise e). split; [done|]. constructor.
Qed.

Lemma main_cases (fuel : nat) (driver : WebDriver) :
  main CONFIG fuel driver =
  let start := [EOpen (OUTPUT_CSV_PATH CONFIG);
                EWriteHeader (CSV_FIELDNAMES CONFIG); EInitDriver] in
  match get_top_goodreads_book_ids CONFIG fuel driver 150 with
  | None => Running
  | Some (Raise e) => Ended (start ++ [EClose]) (Raise e)
  | Some (Return ids) =>
      match for_each_book CONFIG driver ids with
      | Running => Running
      | Ended tr (Return _) => Ended (start ++ tr ++ [EQuit; EClose]) (Return tt)
      | Ended tr (Raise e) => Ended (start ++ tr ++ [EClose]) (Raise e)
      end
  end.
Proof.
  unfold main, with_open, mbind, run_mbind, run_bind, lift_fuel, emit. simpl.
  destruct (get_top_goodreads_book_ids CONFIG fuel driver 150) as [[ids|e]|];
    [|done..].
  destruct (for_each_book CONFIG driver ids) as [|tr [[]|e]]; [done| |done].
  simpl. by rewrite <- app_assoc.
Qed.

Lemma flush_per_row_other (e : event) (tr : list event) :
  (forall row, e <> EWriteRow row) ->
  flush_per_row tr -> flush_per_row (e :: tr).
Proof.
  intros He Htr [|i] row; simpl.
  - intros [= ->]. by destruct (He row).
  - apply Htr.
Qed.

Lemma flush_per_row_loop (tr tl : list event) :
  loop_trace tr -> flush_per_row tl -> flush_per_row (tr ++ tl).
Proof.
  intros Htr Htl. induction Htr as [|url|url r tr _ IH]; [done| |].
  - by apply flush_per_row_other.
  - simpl. intros [|[|[|i]]] row; simpl; [done|done|done|]. apply IH.
Qed.

Lemma flush_per_row_end (tl : list event) :
  Forall (fun e => forall row, e <> EWriteRow row) tl -> flush_per_row tl.
Proof.
  induction 1 as [|e tl He _ IH]; [by intros i row|].
  by apply flush_per_row_other.
Qed.

(** C5. In the trace of a run, whichever way the run ends, the event right
    after the write of a row is a flush: every row is flushed before the next
    identifier is taken up, and a flush stands between any two rows. *)
Theorem flush_follows_row (fuel : nat) (driver : WebDriver) (i : nat)
    (row : list value) :
  trace_of (main CONFIG fuel driver) !! i = Some (EWriteRow row) ->
  trace_of (main CONFIG fuel driver) !! S i = Some EFlush.
Proof.
  revert i row. change (flush_per_row (trace_of (main CONFIG fuel driver))).
  rewrite main_cases. simpl.
  destruct (get_top_goodreads_book_ids CONFIG fuel driver 150) as [[ids|e]|].
  - destruct (for_each_book_trace driver ids) as (tr & r & -> & Htr).
    destruct r as [[]|e]; simpl;
      repeat (apply flush_per_row_other; [done|]);
      apply flush_per_row_loop, flush_per_row_end;
      by repeat constructor.
  - simpl. apply flush_per_row_end. by repeat constructor.
  - by intros i row.
Qed.

Lemma not_quit_loop (tr : list event) : loop_trace tr -> EQuit ∉ tr.
Proof.
  induction 1 as [|url|url r tr _ IH].
  - apply not_elem_of_nil.
  - rewrite not_elem_of_cons. split; [done|apply not_elem_of_nil].
  - rewrite !not_elem_of_cons. by repeat split.
Qed.

(** C3, as amended. A run that ends normally has released the browser
    session: [driver.quit] is its last step before the file is closed, and
    it is executed once. A run that ends with an exception, raised in the
    discovery or in the loop, has not executed [driver.quit]. *)
Theorem quit_on_normal_exit_only (fuel : nat) (driver : WebDriver) :
  match main CONFIG fuel driver with
  | Running => True
  | Ended tr (Return _) => exists tr', tr = tr' ++ [EQuit; EClose] /\ EQuit ∉ tr'
  | Ended tr (Raise _) => EQuit ∉ tr
  end.
Proof.
  rewrite main_cases. simpl.
  destruct (get_top_goodreads_book_ids CONFIG fuel driver 150) as [[ids|e]|];
    [| |done].
  - destruct (for_each_book_trace driver ids) as (tr & r & -> & Htr).
    pose proof (not_quit_loop tr Htr) as Hrows.
    destruct r as [[]|e]; simpl.
    + eexists (_ :: _ :: _ :: _). split; [done|].
      rewrite !not_elem_of_cons. by repeat split.
    + rewrite !not_elem_of_cons, not_elem_of_app, not_elem_of_cons.
      repeat split; try done. apply not_elem_of_nil.
  - simpl. rewrite !not_elem_of_cons. repeat split; try done.
    apply not_elem_of_nil.
Qed.

Lemma scan_links_null_href (pre post : list WebElement) (link : WebElement)
    (book_ids : list Z) (max_books : Z) :
  Forall (fun l => link_step l = Return None) pre ->
  get_attribute link "href" = None ->
  scan_links (pre ++ link :: post) book_ids max_books = Raise TypeError.
Proof.
  intros Hpre Hnull. induction Hpre as [|l pre Hl _ IH]; simpl app.
  - rewrite scan_links_cons. unfold link_step. by rewrite Hnull.
  - rewrite scan_links_cons. by rewrite Hl.
Qed.

(** C10. When the first listing page has a link without [href], after links
    that show no book, the membership test on the missing value raises
    [TypeError]: the link is not passed over, the discovery raises, and the
    run ends with that exception, before any row is written. *)
Theorem null_href_aborts (fuel : nat) (driver : WebDriver) (max_books : Z)
    (pre post : list WebElement) (link : WebElement) :
  page_links CONFIG driver 1 = Return (pre ++ link :: post) ->
  Forall (fun l => link_step l = Return None) pre ->
  get_attribute link "href" = None ->
  0 < max_books ->
  get_top_goodreads_book_ids CONFIG (S fuel) driver max_books
    = Some (Raise TypeError) /\
  main CONFIG (S fuel) driver =
    Ended [EOpen (OUTPUT_CSV_PATH CONFIG); EWriteHeader (CSV_FIELDNAMES CONFIG);
           EInitDriver; EClose] (Raise TypeError).
Proof.
  intros Hlinks Hpre Hnull Hmax.
  assert (Hraise : forall m, 0 < m ->
    get_top_goodreads_book_ids CONFIG (S fuel) driver m = Some (Raise TypeError)).
  { intros m Hm. unfold get_top_goodreads_book_ids. simpl.
    replace (Z.of_nat 0 <? m) with true by (symmetry; apply Z.ltb_lt; lia).
    rewrite visit_page_links, Hlinks.
    by rewrite (scan_links_null_href pre post link [] m Hpre Hnull). }
  split; [by apply Hraise|].
  rewrite main_cases. by rewrite Hraise.
Qed.

End Pipeline.

(** ** The properties on the small site *)

Module Examples.
Import Demo.

Lemma discovery_first_seen_witness :
  get_top_goodreads_book_ids config 2 site 7
    = Some (Return [1; 2; 3; 4; 5; 6; 7]) /\
  (Z.of_nat (length [1; 2; 3; 4; 5; 6; 7]) <= Z.max 0 7 /\
   NoDup [1; 2; 3; 4; 5; 6; 7] /\
   exists k : nat, (k <= 2)%nat /\
     (forall j, (j < k)%nat ->
        is_Return (page_links config site (Z.of_nat (S j))) = true) /\
     [1; 2; 3; 4; 5; 6; 7] = take (Z.to_nat 7) (first_seen (stream config site k))).
Proof.
  split; [vm_compute; reflexivity|].
  apply (discovery_first_seen config 2 site 7). vm_compute. reflexivity.
Defined.

Lemma mirror_serves : serves config mirror.
Proof.
  intros page _. eexists. split; [reflexivity|].
  repeat constructor.
Qed.

Lemma mirror_page_ids (page : Z) :
  page_ids config mirror page = [1; 2; 3; 1; 4; 5].
Proof. vm_compute. reflexivity. Qed.

Lemma mirror_first_seen (k : nat) :
  first_seen (stream config mirror (S k)) = [1; 2; 3; 4; 5].
Proof.
  induction k as [|k IH].
  - reflexivity.
  - change (stream config mirror (S (S k)))
      with (stream config mirror (S k) ++ page_ids config mirror (Z.of_nat (S (S k)))).
    rewrite <- add_new_first_seen, IH, mirror_page_ids. reflexivity.
Qed.

Lemma discovery_unbounded_witness :
  serves config mirror /\
  get_top_goodreads_book_ids config 1000 mirror 150 = None.
Proof.
  split; [apply mirror_serves|].
  apply (discovery_unbounded config mirror 150 mirror_serves).
  intros [|k]; [simpl; lia|]. rewrite mirror_first_seen. simpl. lia.
Defined.


Lemma quit_skipped_when_discovery_fails :
  exists tr e,
    get_top_goodreads_book_ids config 1 offline 150 = Some (Raise e) /\
    main config 1 offline = Ended tr (Raise e) /\
    EQuit ∉ tr.
Proof.
  exists [EOpen (OUTPUT_CSV_PATH config); EWriteHeader (CSV_FIELDNAMES config);
          EInitDriver; EClose], WebDriverException.
  split; [reflexivity|]. split; [reflexivity|].
  rewrite !not_elem_of_cons. repeat split; try discriminate.
  apply not_elem_of_nil.
Qed.

Lemma one_row_per_identifier_witness :
  Forall (fun key => key ∈ CSV_FIELDNAMES config) record_keys /\
  for_each_book config site [1; 2; 6] =
    Ended [EExtract "https://www.goodreads.com/book/show/1";
           EWriteRow [VStr "Dune"; VStr "Frank Herbert"; VFloat "4.27"%string;
                      VStr "Science Fiction, Classics"; VInt 352; VInt 12345];
           EFlush;
           EExtract "https://www.goodreads.com/book/show/2";
           EWriteRow [VStr ""; VStr ""; VStr ""; VStr ""; VStr ""; VStr ""];
           EFlush;
           EExtract "https://www.goodreads.com/book/show/6";
           EWriteRow [VStr ""; VStr ""; VStr ""; VStr ""; VStr ""; VStr ""];
           EFlush] (Return tt).
Proof.
  assert (Hfields : Forall (fun key => key ∈ CSV_FIELDNAMES config) record_keys).
  { apply Forall_forall. intros key Hkey. exact Hkey. }
  split; [exact Hfields|].
  destruct (one_row_per_identifier config site [1; 2; 6] Hfields) as [Hrun _].
  rewrite Hrun. vm_compute. reflexivity.
Defined.

Lemma flush_follows_row_witness :
  trace_of (main config 1 megastore) !! 4%nat =
    Some (EWriteRow [VStr "Dune"; VStr "Frank Herbert"; VFloat "4.27"%string;
                     VStr "Science Fiction, Classics"; VInt 352; VInt 12345]) /\
  trace_of (main config 1 megastore) !! 5%nat = Some EFlush.
Proof.
  assert (Hrow : trace_of (main config 1 megastore) !! 4%nat =
    Some (EWriteRow [VStr "Dune"; VStr "Frank Herbert"; VFloat "4.27"%string;
                     VStr "Science Fiction, Classics"; VInt 352; VInt 12345])).
  { vm_compute. reflexivity. }
  split; [exact Hrow|].
  exact (flush_follows_row config 1 megastore 4 _ Hrow).
Defined.

Lemma ratings_count_lost :
  exists el d,
    get site (details_url config 2) = Return paperback /\
    find_element paperback CSS_SELECTOR (RATING_META_SELECTOR config) = Return el /\
    text el = "12,345 ratings" /\
    get_goodreads_book_data config site (details_url config 2) = Return d /\
    dict_get d "ratings_count" <> VInt 12345.
Proof.
  eexists _, _. repeat split; try (vm_compute; reflexivity). discriminate.
Qed.

Lemma ratings_count_12345_witness :
  get site (details_url config 1) = Return dune /\
  find_element dune CSS_SELECTOR (RATING_META_SELECTOR config)
    = Return (element "12,345 ratings" None) /\
  exists d,
    get_goodreads_book_data config site (details_url config 1) = Return d /\
    dict_get d "ratings_count" = VInt 12345.
Proof.
  assert (Hget : get site (details_url config 1) = Return dune)
    by (vm_compute; reflexivity).
  assert (Hel : find_element dune CSS_SELECTOR (RATING_META_SELECTOR config)
                = Return (element "12,345 ratings" None))
    by (vm_compute; reflexivity).
  split; [exact Hget|]. split; [exact Hel|].
  destruct (ratings_count_12345 config site _ dune _ Hget Hel eq_refl)
    as [_ Hrec].
  assert (Hok : is_Return (get_goodreads_book_data_try config site
                             (details_url config 1)) = true)
    by (vm_compute; reflexivity).
  destruct (get_goodreads_book_data_try config site (details_url config 1))
    as [d|e] eqn:Htry; [|discriminate Hok].
  exists d. exact Hrec.
Defined.

Lemma pages_lost :
  exists p d,
    get site (details_url config 3) = Return one_rating /\
    find_elements one_rating TAG_NAME (TAG_P config) = Return [p] /\
    text p = "352 pages" /\
    get_goodreads_book_data config site (details_url config 3) = Return d /\
    dict_get d "pages" <> VInt 352.
Proof.
  eexists _, _. repeat split; try (vm_compute; reflexivity). discriminate.
Qed.

Lemma pages_352_or_absent_witness :
  (scan_pages [element "A desert planet." None; element "352 pages" None]
     = Return (VInt 352) /\
   exists d, get_goodreads_book_data config site (details_url config 1) = Return d /\
     dict_get d "pages" = VInt 352) /\
  (scan_pages [element "A slim volume." None] = Return VNone /\
   exists d, get_goodreads_book_data config site (details_url config 4) = Return d /\
     dict_get d "pages" = VNone).
Proof.
  split.
  - assert (Hget : get site (details_url config 1) = Return dune)
      by (vm_compute; reflexivity).
    assert (Hp : find_elements dune TAG_NAME (TAG_P config) =
              Return [element "A desert planet." None; element "352 pages" None])
      by (vm_compute; reflexivity).
    destruct (pages_352_or_absent config site _ dune _ Hget Hp) as [Hfirst _].
    destruct (Hfirst [element "A desert planet." None]
                (element "352 pages" None) [] eq_refl)
      as [Hscan Hrec].
    { repeat constructor. }
    { reflexivity. }
    split; [exact Hscan|].
    assert (Hok : is_Return (get_goodreads_book_data_try config site
                               (details_url config 1)) = true)
      by (vm_compute; reflexivity).
    destruct (get_goodreads_book_data_try config site (details_url config 1))
      as [d|e] eqn:Htry; [|discriminate Hok].
    exists d. exact Hrec.
  - assert (Hget : get site (details_url config 4) = Return poems)
      by (vm_compute; reflexivity).
    assert (Hp : find_elements poems TAG_NAME (TAG_P config) =
              Return [element "A slim volume." None])
      by (vm_compute; reflexivity).
    destruct (pages_352_or_absent config site _ poems _ Hget Hp) as [_ Hnone].
    apply Hnone. repeat constructor.
Defined.

Lemma unreadable_pages_empty_record_witness :
  get site (details_url config 2) = Return paperback /\
  find_elements paperback TAG_NAME (TAG_P config)
    = Return [element "Paperback, 352 pages" None] /\
  Str.int "paperback," = Raise ValueError /\
  get_goodreads_book_data config site (details_url config 2) = Return ∅.
Proof.
  assert (Hget : get site (details_url config 2) = Return paperback)
    by (vm_compute; reflexivity).
  assert (Hp : find_elements paperback TAG_NAME (TAG_P config)
               = Return ([] ++ element "Paperback, 352 pages" None :: []))
    by (vm_compute; reflexivity).
  assert (Hint : Str.int "paperback," = Raise ValueError) by reflexivity.
  split; [exact Hget|]. split; [exact Hp|]. split; [exact Hint|].
  apply (unreadable_pages_empty_record config site _ paperback [] []
           (element "Paperback, 352 pages" None) "paperback," Hget Hp).
  - constructor.
  - reflexivity.
  - reflexivity.
  - exact Hint.
Defined.

Lemma null_href_aborts_witness :
  page_links config broken 1 =
    Return ([element "" (Some "https://www.goodreads.com/author/show/58")]
            ++ element "" None :: [element "" (book_href 1)]) /\
  get_top_goodreads_book_ids config 1 broken 150 = Some (Raise TypeError) /\
  main config 1 broken =
    Ended [EOpen (OUTPUT_CSV_PATH config); EWriteHeader (CSV_FIELDNAMES config);
           EInitDriver; EClose] (Raise TypeError).
Proof.
  assert (Hlinks : page_links config broken 1 =
    Return ([element "" (Some "https://www.goodreads.com/author/show/58")]
            ++ element "" None :: [element "" (book_href 1)]))
    by (vm_compute; reflexivity).
  split; [exact Hlinks|].
  apply (null_href_aborts config 0 broken 150 _ _ _ Hlinks).
  - repeat constructor.
  - reflexivity.
  - lia.
Defined.

End Examples.

(** * More properties *)

(** ** Facts on strings *)

Lemma app_cons (c : ascii) (a b : string) :
  String c a +:+ b = String c (a +:+ b).
Proof. reflexivity. Qed.

Lemma app_nil_l_str (s : string) : "" +:+ s = s.
Proof. reflexivity. Qed.

Lemma app_nil_r_str (s : string) : s +:+ "" = s.
Proof. induction s as [|c s IH]; [done|]. by rewrite app_cons, IH. Qed.

Lemma app_assoc_str (a b c : string) : (a +:+ b) +:+ c = a +:+ (b +:+ c).
Proof. induction a as [|x a IH]; [done|]. by rewrite !app_cons, IH. Qed.

Lemma rev_app_acc (s acc : string) :
  String.rev_app s acc = String.rev s +:+ acc.
Proof.
  unfold String.rev. revert acc. induction s as [|c s IH]; intros acc; [done|].
  simpl. rewrite (IH (String c acc)), (IH (String c "")).
  by rewrite app_assoc_str.
Qed.

Lemma rev_cons (c : ascii) (s : string) :
  String.rev (String c s) = String.rev s +:+ String c "".
Proof. unfold String.rev at 1. simpl. apply rev_app_acc. Qed.

Lemma rev_snoc (s : string) (c : ascii) :
  String.rev (s +:+ String c "") = String c (String.rev s).
Proof.
  induction s as [|x s IH]; [done|].
  by rewrite app_cons, !rev_cons, IH.
Qed.

Lemma rev_rev (s : string) : String.rev (String.rev s) = s.
Proof.
  induction s as [|c s IH]; [done|]. by rewrite rev_cons, rev_snoc, IH.
Qed.

Lemma lstrip_idemp (s : string) : Str.lstrip (Str.lstrip s) = Str.lstrip s.
Proof.
  induction s as [|c s IH]; [done|]. simpl.
  destruct (Str.isspace c) eqn:Hc; [done|]. simpl. by rewrite Hc.
Qed.

Lemma lstrip_snoc (s : string) (c : ascii) :
  Str.isspace c = false ->
  exists v, Str.lstrip (s +:+ String c "") = v +:+ String c "".
Proof.
  intros Hc. induction s as [|x s [v IH]].
  - exists "". simpl. by rewrite Hc.
  - rewrite app_cons. simpl. destruct (Str.isspace x).
    + by exists v.
    + by exists (String x s).
Qed.

Lemma strip_rstrip (s : string) : Str.strip s = rstrip (Str.lstrip s).
Proof. reflexivity. Qed.

Lemma rstrip_idemp (s : string) : rstrip (rstrip s) = rstrip s.
Proof. unfold rstrip. by rewrite rev_rev, lstrip_idemp. Qed.

Lemma lstrip_rstrip (s : string) :
  Str.lstrip s = s -> Str.lstrip (rstrip s) = rstrip s.
Proof.
  destruct s as [|c s]; [done|]. simpl.
  destruct (Str.isspace c) eqn:Hc.
  - intros Heq. exfalso.
    assert (Hlen : forall t, (String.length (Str.lstrip t) <= String.length t)%nat).
    { clear. induction t as [|x t IH]; simpl; [lia|].
      destruct (Str.isspace x); simpl; lia. }
    specialize (Hlen s). rewrite Heq in Hlen. simpl in Hlen. lia.
  - intros _. unfold rstrip. rewrite rev_cons.
    destruct (lstrip_snoc (String.rev s) c Hc) as [v ->].
    rewrite rev_snoc. simpl. by rewrite Hc.
Qed.

Lemma strip_idemp (s : string) : Str.strip (Str.strip s) = Str.strip s.
Proof.
  rewrite !strip_rstrip.
  rewrite (lstrip_rstrip (Str.lstrip s)) by apply lstrip_idemp.
  apply rstrip_idemp.
Qed.

Lemma lstrip_space_prefix (w s : string) :
  all_space w = true -> Str.lstrip (w +:+ s) = Str.lstrip s.
Proof.
  induction w as [|c w IH]; [done|]. simpl.
  intros [Hc Hw]%andb_true_iff. rewrite Hc. auto.
Qed.

Lemma strip_space_prefix (w s : string) :
  all_space w = true -> Str.strip (w +:+ s) = Str.strip s.
Proof. intros Hw. unfold Str.strip. by rewrite lstrip_space_prefix. Qed.

(** *** Splitting *)

Lemma split_go_step (sep : string) (skip : nat) (cur : string) (c : ascii)
    (s : string) :
  Str.split_go sep skip cur (String c s) =
  match skip with
  | S k => Str.split_go sep k cur s
  | O =>
      if String.prefix sep (String c s)
      then String.rev cur :: Str.split_go sep (String.length sep - 1) "" s
      else Str.split_go sep O (String c cur) s
  end.
Proof. reflexivity. Qed.

Lemma split_go_cons (sep : string) (skip : nat) (cur s : string) :
  exists x l, Str.split_go sep skip cur s = x :: l.
Proof.
  revert skip cur. induction s as [|c s IH]; intros skip cur.
  - by eexists _, _.
  - rewrite split_go_step. destruct skip as [|k]; [|apply IH].
    destruct (String.prefix sep (String c s)); [by eexists _, _|apply IH].
Qed.

Lemma contains_step (sep : string) (c : ascii) (s : string) :
  Str.contains sep (String c s) =
  String.prefix sep (String c s) || Str.contains sep s.
Proof. reflexivity. Qed.

Lemma split_go_absent (sep cur s : string) :
  Str.contains sep s = false ->
  Str.split_go sep 0 cur s = [String.rev cur +:+ s].
Proof.
  revert cur. induction s as [|c s IH]; intros cur.
  - intros _. simpl. by rewrite app_nil_r_str.
  - rewrite contains_step, split_go_step.
    intros [Hp Hs]%orb_false_iff. rewrite Hp, (IH _ Hs), rev_cons.
    by rewrite app_assoc_str.
Qed.

Lemma split_absent (sep s : string) :
  Str.contains sep s = false -> Str.split sep s = [s].
Proof. intros Hs. unfold Str.split. by rewrite split_go_absent. Qed.



Lemma prefix_char (x c : ascii) (s : string) :
  String.prefix (String x "") (String c s) = bool_decide (x = c).
Proof.
  simpl. destruct (ascii_dec x c) as [->|Hne].
  - rewrite bool_decide_eq_true_2 by done. by destruct s.
  - by rewrite bool_decide_eq_false_2.
Qed.

Lemma contains_char_cons (x c : ascii) (s : string) :
  Str.contains (String x "") (String c s) =
  bool_decide (x = c) || Str.contains (String x "") s.
Proof.
  change (Str.contains (String x "") (String c s))
    with (String.prefix (String x "") (String c s)
          || Str.contains (String x "") s).
  by rewrite prefix_char.
Qed.

Lemma split_go_char (x c : ascii) (cur s : string) :
  Str.split_go (String x "") 0 cur (String c s) =
  if bool_decide (x = c)
  then String.rev cur :: Str.split_go (String x "") 0 "" s
  else Str.split_go (String x "") 0 (String c cur) s.
Proof.
  change (Str.split_go (String x "") 0 cur (String c s))
    with (if String.prefix (String x "") (String c s)
          then String.rev cur :: Str.split_go (String x "") 0 "" s
          else Str.split_go (String x "") 0 (String c cur) s).
  by rewrite prefix_char.
Qed.

Lemma split_go_char_app (x : ascii) (cur a b : string) :
  Str.contains (String x "") a = false ->
  Str.split_go (String x "") 0 cur (a +:+ String x b) =
  (String.rev cur +:+ a) :: Str.split_go (String x "") 0 "" b.
Proof.
  revert cur. induction a as [|c a IH]; intros cur.
  - intros _. rewrite app_nil_l_str, split_go_char.
    rewrite bool_decide_eq_true_2 by done. by rewrite app_nil_r_str.
  - rewrite contains_char_cons. intros [Hc Ha]%orb_false_iff.
    rewrite app_cons, split_go_char, Hc, (IH _ Ha), rev_cons.
    by rewrite app_assoc_str.
Qed.

Lemma split_char_app (x : ascii) (a b : string) :
  Str.contains (String x "") a = false ->
  Str.split (String x "") (a +:+ String x b) = a :: Str.split (String x "") b.
Proof. intros Ha. unfold Str.split. by rewrite split_go_char_app. Qed.

Lemma length_split_go_char (x : ascii) (cur s : string) :
  length (Str.split_go (String x "") 0 cur s) = S (count_char x s).
Proof.
  revert cur. induction s as [|c s IH]; intros cur; [done|].
  rewrite split_go_char. simpl count_char.
  case_bool_decide; simpl; by rewrite IH.
Qed.

(** *** Numbers *)

Ltac ascii_cases c :=
  destruct c as [[] [] [] [] [] [] [] []]; vm_compute; try done; try lia.

Lemma isdigit_char_plain (c : ascii) :
  Str.isdigit_char c = true ->
  Str.int_space c = false /\ (Str.code c =? 43)%N = false /\
  (Str.code c =? 45)%N = false /\ (Str.code c =? 95)%N = false.
Proof. ascii_cases c. Qed.

Lemma isdecimal_isdigit (c : ascii) :
  Str.isdecimal c = true -> Str.isdigit_char c = true.
Proof. unfold Str.isdigit_char. by intros ->. Qed.

Lemma digit_val_bounds (c : ascii) :
  Str.isdecimal c = true -> 0 <= Str.digit_val c <= 9.
Proof. ascii_cases c. Qed.

Lemma int_digits_decimal (s : string) (acc : Z) :
  all_decimal s = true -> 0 <= acc ->
  exists n, Str.int_digits acc s = Some n /\ 0 <= n.
Proof.
  revert acc. induction s as [|c s IH]; intros acc; simpl.
  - intros _ Hacc. by exists acc.
  - intros [Hc Hs]%andb_true_iff Hacc. rewrite Hc. apply IH; [done|].
    pose proof (digit_val_bounds c Hc). lia.
Qed.

Lemma int_digits_superscript (s : string) (acc : Z) :
  Str.all_digits s = true -> all_decimal s = false ->
  Str.int_digits acc s = None.
Proof.
  revert acc. induction s as [|c s IH]; intros acc; [done|].
  simpl all_decimal. simpl Str.all_digits.
  intros [Hc Hs]%andb_true_iff Hdec.
  destruct (isdigit_char_plain c Hc) as (Hsp & _ & _ & Hus).
  change (Str.int_digits acc (String c s)) with
    (if Str.isdecimal c then Str.int_digits (acc * 10 + Str.digit_val c) s
     else if (Str.code c =? 95)%N then
       match s with
       | String d s'' =>
           if Str.isdecimal d
           then Str.int_digits (acc * 10 + Str.digit_val d) s'' else None
       | EmptyString => None
       end
     else if Str.all_int_space (String c s) then Some acc else None).
  destruct (Str.isdecimal c) eqn:Hd.
  - apply IH; [done|]. by rewrite andb_true_l in Hdec.
  - rewrite Hus. simpl. by rewrite Hsp.
Qed.

Lemma count_decimal_nonneg (s : string) : 0 <= Str.count_decimal s.
Proof.
  induction s as [|c s IH]; simpl; [lia|].
  destruct (Str.isdecimal c); lia.
Qed.

Lemma count_decimal_length (s : string) :
  all_decimal s = true -> Str.count_decimal s = Z.of_nat (String.length s).
Proof.
  induction s as [|c s IH]; [done|].
  simpl. intros [Hc Hs]%andb_true_iff. rewrite Hc, (IH Hs). lia.
Qed.

Lemma int_plain (c : ascii) (s : string) :
  Str.isdigit_char c = true ->
  Str.int (String c s) =
  match Str.int_unsigned (String c s) with
  | Some v =>
      if Str.int_max_str_digits <? Str.count_decimal (String c s)
      then Raise ValueError else Return v
  | None => Raise ValueError
  end.
Proof.
  intros Hc. destruct (isdigit_char_plain c Hc) as (Hsp & Hplus & Hminus & _).
  unfold Str.int. simpl Str.lstrip_int. rewrite Hsp, Hplus, Hminus.
  destruct (Str.int_unsigned (String c s)) as [v|]; [|done].
  destruct (_ <? _); [done|]. f_equal. lia.
Qed.

(** On a string [isdigit] accepts, [int] returns a number that is not
    negative when all the characters are decimal digits and there are at
    most [Str.int_max_str_digits] of them; it raises when one of them is a
    superscript digit or when there are more. *)
Lemma int_isdigit (s : string) :
  Str.isdigit s = true ->
  if all_decimal s && (Z.of_nat (String.length s) <=? Str.int_max_str_digits)
  then exists n, Str.int s = Return n /\ 0 <= n
  else Str.int s = Raise ValueError.
Proof.
  destruct s as [|c s]; [done|].
  change (Str.isdigit (String c s)) with (Str.isdigit_char c && Str.all_digits s).
  intros [Hc Hs]%andb_true_iff. rewrite (int_plain c s Hc).
  destruct (all_decimal (String c s)) eqn:Hall; simpl andb.
  - rewrite (count_decimal_length _ Hall).
    rewrite (Z.ltb_antisym (Z.of_nat (String.length (String c s)))).
    simpl in Hall. apply andb_true_iff in Hall as [Hd Hdec].
    simpl Str.int_unsigned. rewrite Hd.
    pose proof (digit_val_bounds c Hd) as Hv.
    destruct (int_digits_decimal s (Str.digit_val c) Hdec) as (n & -> & Hn);
      [lia|].
    destruct (_ <=? _); simpl; [by exists n|done].
  - simpl in Hall. simpl Str.int_unsigned.
    destruct (Str.isdecimal c) eqn:Hd; [|done].
    simpl in Hall. by rewrite int_digits_superscript.
Qed.

(** ** More on the discovery *)

Section MoreDiscovery.
Context (CONFIG : Config).




Lemma link_id_nonneg (link : WebElement) (n : Z) :
  link_id link = Some n -> 0 <= n.
Proof.
  unfold link_id, link_step.
  destruct (get_attribute link "href") as [href|]; [|done].
  destruct (Str.contains "/book/show/" href); [|done].
  destruct (Str.getitem (Str.split "/book/show/" href) 1) as [after|]; [|done].
  simpl. destruct (Str.getitem (Str.split "." after) 0) as [part|]; [|done].
  simpl. destruct (Str.isdigit part) eqn:Hd; [|done].
  pose proof (int_isdigit part Hd) as Hint.
  destruct (all_decimal part &&
            (Z.of_nat (String.length part) <=? Str.int_max_str_digits)).
  - destruct Hint as (m & -> & Hm). simpl. by intros [= <-].
  - by rewrite Hint.
Qed.

Lemma elem_of_stream (driver : WebDriver) (k : nat) (id : Z) :
  id ∈ stream CONFIG driver k ->
  exists (j : nat) links link,
    (j < k)%nat /\
    page_links CONFIG driver (Z.of_nat (S j)) = Return links /\
    link ∈ links /\ link_id link = Some id.
Proof.
  induction k as [|k IH]; simpl; [by intros ?%elem_of_nil|].
  rewrite elem_of_app. intros [Hin|Hin].
  - destruct (IH Hin) as (j & links & link & Hj & H1 & H2 & H3).
    exists j, links, link. repeat split; [lia|done..].
  - unfold page_ids in Hin.
    destruct (page_links CONFIG driver (Z.of_nat (S k))) as [links|] eqn:Hl;
      [|by apply elem_of_nil in Hin].
    apply list_elem_of_omap in Hin as (link & Hlink & Hid).
    exists k, links, link. repeat split; [lia|done..].
Qed.

(** X2. Every identifier the discovery returns was read from a link of a
    listing page it visited, and is not negative. *)
Theorem discovered_ids_come_from_links (fuel : nat) (driver : WebDriver)
    (max_books : Z) (ids : list Z) :
  get_top_goodreads_book_ids CONFIG fuel driver max_books = Some (Return ids) ->
  forall id, id ∈ ids ->
    0 <= id /\
    exists (j : nat) links link,
      (j < fuel)%nat /\
      page_links CONFIG driver (Z.of_nat (S j)) = Return links /\
      link ∈ links /\ link_id link = Some id.
Proof.
  unfold get_top_goodreads_book_ids. intros Hrun id Hid.
  destruct (while_pages_returns CONFIG driver max_books fuel 0 ids)
    as (k & Hk & _ & -> & _).
  - intros j Hj. lia.
  - simpl. by rewrite take_nil.
  - apply subseteq_take, elem_of_first_seen, elem_of_stream in Hid
      as (j & links & link & Hj & Hlinks & Hlink & Hlid).
    split; [by eapply link_id_nonneg|].
    exists j, links, link. repeat split; [lia|done..].
Qed.

(** X3. A call with a target that is not negative returns exactly that many
    identifiers. *)
Theorem discovery_returns_exactly_target (fuel : nat) (driver : WebDriver)
    (max_books : Z) (ids : list Z) :
  0 <= max_books ->
  get_top_goodreads_book_ids CONFIG fuel driver max_books = Some (Return ids) ->
  Z.of_nat (length ids) = max_books.
Proof.
  unfold get_top_goodreads_book_ids. intros Hmax Hrun.
  destruct (while_pages_returns CONFIG driver max_books fuel 0 ids)
    as (k & _ & _ & -> & Hge).
  - intros j Hj. lia.
  - simpl. by rewrite take_nil.
  - rewrite length_take in *. lia.
Qed.


(** X4. The loop over the links of a page only appends: the identifiers
    collected before keep their places, every identifier added was read from
    a link of the page, no identifier is added twice, and the list does not
    grow past the target. *)
Theorem scan_links_appends (links : list WebElement) (book_ids ids : list Z)
    (max_books : Z) :
  scan_links links book_ids max_books = Return ids ->
  exists new,
    ids = (book_ids ++ new) /\
    (forall id, id ∈ new ->
       (id ∉ book_ids) /\ exists link, link ∈ links /\ link_id link = Some id) /\
    NoDup new /\
    (Z.of_nat (length book_ids) < max_books ->
     Z.of_nat (length ids) <= max_books).
Proof.
  revert book_ids. induction links as [|link rest IH]; intros book_ids.
  - intros [= <-]. exists []. rewrite app_nil_r.
    split_and!; [done|by intros id ?%elem_of_nil|constructor|lia].
  - rewrite scan_links_cons.
    assert (Hrest : forall seen,
      scan_links rest seen max_books = Return ids ->
      exists new, ids = (seen ++ new) /\
        (forall id, id ∈ new ->
           (id ∉ seen) /\ exists l, l ∈ link :: rest /\ link_id l = Some id) /\
        NoDup new /\
        (Z.of_nat (length seen) < max_books ->
         Z.of_nat (length ids) <= max_books)).
    { intros seen Hscan. destruct (IH seen Hscan) as (new & -> & Hnew & Hnd & Hlen).
      exists new. split_and!; [done| |done..].
      intros id Hid. destruct (Hnew id Hid) as (Hn & l & Hl & Hlid).
      split; [done|]. exists l. split; [by apply list_elem_of_further|done]. }
    destruct (link_step link) as [[n|]|e] eqn:Hstep;
      [|by apply Hrest|by intros [=]].
    case_bool_decide as Hin; [by apply Hrest|].
    assert (Hn : exists l, l ∈ link :: rest /\ link_id l = Some n).
    { exists link. split; [apply list_elem_of_here|by apply link_id_step]. }
    destruct (Z.leb_spec max_books (Z.of_nat (length (book_ids ++ [n]))))
      as [Hge|Hlt].
    + intros [= <-]. exists [n]. split_and!.
      * done.
      * by intros id ->%list_elem_of_singleton.
      * apply NoDup_singleton.
      * rewrite length_app in *. simpl in *. lia.
    + intros Hscan.
      destruct (Hrest _ Hscan) as (new & -> & Hnew & Hnd & Hlen).
      exists (n :: new).
      split_and!; [by rewrite <- app_assoc| | |intros _; by apply Hlen].
      * intros id [->|Hid]%elem_of_cons; [done|].
        destruct (Hnew id Hid) as (Hnot & Hl). split; [|done].
        intros Hb. apply Hnot, elem_of_app. by left.
      * apply NoDup_cons. split; [|done].
        intros Hid. destruct (Hnew n Hid) as (Hnot & _).
        apply Hnot, elem_of_app. right. apply list_elem_of_here.
Qed.

Lemma length_first_seen_mono (driver : WebDriver) (k f : nat) :
  (length (first_seen (stream CONFIG driver k))
   <= length (first_seen (stream CONFIG driver (k + f))))%nat.
Proof. apply prefix_length, first_seen_prefix, stream_prefix. Qed.

(** Pages that are served, with fewer identifiers than the target, are turns
    of the loop that go through. *)
Lemma while_pages_skip (driver : WebDriver) (max_books : Z) (k : nat) :
  (forall j, (j < k)%nat ->
     exists links, page_links CONFIG driver (Z.of_nat (S j)) = Return links /\
       Forall (fun link => is_Return (link_step link) = true) links) ->
  Z.of_nat (length (first_seen (stream CONFIG driver k))) < max_books ->
  forall fuel,
    while_pages CONFIG (k + fuel) driver max_books [] 1 =
    while_pages CONFIG fuel driver max_books
      (first_seen (stream CONFIG driver k)) (Z.of_nat (S k)).
Proof.
  induction k as [|k IH]; intros Hserved Hlt fuel; [done|].
  pose proof (length_first_seen_mono driver k 1) as Hmono.
  rewrite Nat.add_1_r in Hmono.
  replace (S k + fuel)%nat with (k + S fuel)%nat by lia.
  rewrite IH; [|intros j Hj; apply Hserved; lia|lia].
  simpl while_pages.
  replace (Z.of_nat (length (first_seen (stream CONFIG driver k))) <? max_books)
    with true by (symmetry; apply Z.ltb_lt; lia).
  rewrite visit_page_links.
  destruct (Hserved k) as (links & Hlinks & Hok); [lia|]. rewrite Hlinks.
  assert (Hk : Z.of_nat (length (first_seen (stream CONFIG driver k))) < max_books)
    by lia.
  pose proof (scan_links_spec links _ _ Hk) as Hspec.
  destruct (scan_links links _ max_books) as [ids|e].
  - subst ids. rewrite add_new_first_seen.
    assert (Hnext : stream CONFIG driver (S k) =
              stream CONFIG driver k ++ omap link_id links).
    { simpl. unfold page_ids. by rewrite Hlinks. }
    rewrite <- Hnext, take_ge by lia.
    by replace (Z.of_nat (S k) + 1) with (Z.of_nat (S (S k))) by lia.
  - exfalso. apply Exists_exists in Hspec as (link & Hin & Hbad).
    rewrite Forall_forall in Hok. by rewrite (Hok link Hin) in Hbad.
Qed.

(** X5. The discovery does not catch what a listing page raises: when the
    pages before page [k + 1] are served and show fewer identifiers than the
    target, and page [k + 1] cannot be loaded or read, the discovery raises
    the exception of that page. *)
Theorem discovery_raises_page_error (fuel k : nat) (driver : WebDriver)
    (max_books : Z) (e : exn) :
  (forall j, (j < k)%nat ->
     exists links, page_links CONFIG driver (Z.of_nat (S j)) = Return links /\
       Forall (fun link => is_Return (link_step link) = true) links) ->
  Z.of_nat (length (first_seen (stream CONFIG driver k))) < max_books ->
  page_links CONFIG driver (Z.of_nat (S k)) = Raise e ->
  (k < fuel)%nat ->
  get_top_goodreads_book_ids CONFIG fuel driver max_books = Some (Raise e).
Proof.
  intros Hserved Hlt Hpage Hfuel. unfold get_top_goodreads_book_ids.
  replace fuel with (k + S (fuel - S k))%nat by lia.
  rewrite while_pages_skip by done. simpl while_pages.
  replace (Z.of_nat (length (first_seen (stream CONFIG driver k))) <? max_books)
    with true by (symmetry; apply Z.ltb_lt; lia).
  by rewrite visit_page_links, Hpage.
Qed.

(** The fuel only bounds the number of turns followed: a loop that has ended
    within [fuel] turns has ended the same way within more. *)
Lemma while_pages_more_fuel (driver : WebDriver) (max_books : Z)
    (fuel extra : nat) (book_ids : list Z) (page : Z) (r : result (list Z)) :
  while_pages CONFIG fuel driver max_books book_ids page = Some r ->
  while_pages CONFIG (fuel + extra) driver max_books book_ids page = Some r.
Proof.
  revert book_ids page. induction fuel as [|fuel IH]; intros book_ids page.
  - simpl. destruct (Z.of_nat (length book_ids) <? max_books) eqn:Hc; [done|].
    intros <-. destruct extra; simpl; by rewrite Hc.
  - simpl. destruct (Z.of_nat (length book_ids) <? max_books); [|done].
    destruct (visit_page CONFIG driver max_books book_ids page); [|done].
    apply IH.
Qed.

End MoreDiscovery.

(** ** More on the extraction *)

Section MoreExtraction.
Context `{PyFloatOps} (CONFIG : Config).

(** X7. What [wait_scroll_and_expand] raises is what the wait for the title,
    the scroll or the wait for the ready state raises: the steps on the
    "show more" control never make it raise. *)
Theorem show_more_failure_is_swallowed (driver : Page) :
  wait_scroll_and_expand CONFIG driver =
  (_ ← wait_presence driver 10 CSS_SELECTOR (BOOK_PAGE_SELECTOR CONFIG);
   _ ← execute_script driver
         "window.scrollTo(0, document.body.scrollHeight);" None;
   wait_ready driver 5).
Proof.
  unfold wait_scroll_and_expand, mbind, result_bind.
  destruct (wait_presence driver 10 _ _); [|done].
  destruct (execute_script driver _ None); [|done].
  destruct (wait_ready driver 5) as [[]|]; [|done].
  destruct (wait_clickable driver 3 _ _) as [button|]; [|done].
  by destruct (execute_script driver _ (Some button)).
Qed.

Lemma truthy_nonempty (s : string) : Is_true (truthy s) <-> s <> "".
Proof. destruct s; simpl; [tauto|]. split; [discriminate|done]. Qed.

Lemma safe_get_text_many_eq (driver : Page) (by_ : By) (selector : string)
    (elements : list WebElement) :
  find_elements driver by_ selector = Return elements ->
  exists l,
    safe_get_text driver by_ selector "text" true = Return (VList l) /\
    l = filter (fun s => s <> "") (map (fun el => Str.strip (text el)) elements) /\
    Forall (fun s => s <> "" /\ Str.strip s = s) l /\
    (elements = [] -> l = []).
Proof.
  intros Hfind. unfold safe_get_text. rewrite Hfind. simpl.
  eexists. split; [done|].
  assert (Hfilter : forall l : list string,
            filter (fun s => truthy s) l = filter (fun s => s <> "") l).
  { intros l. apply list_filter_iff. intros s. apply truthy_nonempty. }
  rewrite Hfilter. split_and!; [done| |by intros ->].
  apply Forall_forall. intros s [Hs Hin]%list_elem_of_filter.
  split; [done|].
  apply list_elem_of_fmap in Hin as (el & -> & _). apply strip_idemp.
Qed.


Lemma scan_pages_shape (p_tags : list WebElement) (v : value) :
  scan_pages p_tags = Return v -> v = VNone \/ exists n, v = VInt n.
Proof.
  induction p_tags as [|p rest IH]; simpl.
  - intros [= <-]. by left.
  - destruct (Str.contains "pages" _); [|done].
    destruct (Str.getitem _ 0) as [tok|]; [|done]. simpl.
    destruct (Str.int tok) as [n|]; [|done]. simpl.
    intros [= <-]. right. by exists n.
Qed.


Lemma safe_get_text_many_shape (driver : Page) (by_ : By) (selector : string)
    (v : value) :
  safe_get_text driver by_ selector "text" true = Return v ->
  exists l, v = VList l /\ Forall (fun s => s <> "" /\ Str.strip s = s) l.
Proof.
  destruct (find_elements driver by_ selector) as [els|e] eqn:Hfind.
  - destruct (safe_get_text_many_eq driver by_ selector els Hfind)
      as (l & -> & _ & Hl & _).
    intros [= <-]. by exists l.
  - unfold safe_get_text. by rewrite Hfind.
Qed.

Lemma safe_get_text_one_shape (driver : Page) (by_ : By) (selector : string)
    (v : value) :
  safe_get_text driver by_ selector "text" false = Return v ->
  exists s, v = VStr s /\ Str.strip s = s.
Proof.
  unfold safe_get_text.
  destruct (find_element driver by_ selector) as [el|]; [|done]. simpl.
  intros [= <-]. eexists. split; [done|apply strip_idemp].
Qed.

Lemma extracted_record_shape_aux (driver : WebDriver) (url : string)
    (d : gmap string value) :
  get_goodreads_book_data_try CONFIG driver url = Return d ->
  exists title, d !! "title" = Some title.
Proof.
  unfold get_goodreads_book_data_try, mbind, result_bind.
  repeat (match goal with
          | |- context [match ?m with Return _ => _ | Raise _ => _ end] =>
              destruct m; [|done]
          end).
  intros [= <-]. eexists. apply lookup_insert_eq.
Qed.

(** X9. A record that was extracted in full has exactly the six keys, each
    with a value of its kind: the title a stripped string, the author the
    names joined by [", "], the rating a float, the genres a list of
    non-empty stripped strings, the pages an integer or [None], the count of
    ratings an integer. *)
Theorem extracted_record_shape (driver : WebDriver) (url : string)
    (d : gmap string value) :
  get_goodreads_book_data_try CONFIG driver url = Return d ->
  exists title names rating genres pages ratings_count,
    d = <["title" := VStr title]> (<["author" := VStr (Str.join ", " names)]>
          (<["rating" := VFloat rating]> (<["genres" := VList genres]>
          (<["pages" := pages]> (<["ratings_count" := VInt ratings_count]> ∅)))))
    /\ Str.strip title = title
    /\ Forall (fun s => s <> "" /\ Str.strip s = s) names
    /\ Forall (fun s => s <> "" /\ Str.strip s = s) genres
    /\ (pages = VNone \/ exists n, pages = VInt n).
Proof.
  unfold get_goodreads_book_data_try, mbind, result_bind.
  destruct (get driver url) as [page|]; [|done].
  destruct (wait_scroll_and_expand CONFIG page); [|done].
  destruct (safe_get_text page _ (GENRE_SELECTOR CONFIG) _ _) as [genres|] eqn:Hg;
    [|done].
  destruct (safe_get_text page _ (BOOK_PAGE_SELECTOR CONFIG) _ _) as [title|] eqn:Ht;
    [|done].
  destruct (safe_get_text page _ (AUTHOR_SELECTOR CONFIG) _ _) as [authors|] eqn:Ha;
    [|done].
  apply safe_get_text_many_shape in Hg as (gl & -> & Hgl).
  apply safe_get_text_one_shape in Ht as (t & -> & Htl).
  apply safe_get_text_many_shape in Ha as (al & -> & Hal).
  simpl join_value. cbv iota beta.
  destruct (safe_get_text page _ (RATING_SELECTOR CONFIG) _ _) as [rs|]; [|done].
  destruct (float rs) as [rating|]; [|done].
  destruct (safe_get_text page _ (RATING_META_SELECTOR CONFIG) _ _) as [rt|];
    [|done].
  destruct (parse_ratings_count rt) as [n|]; [|done].
  destruct (find_elements page TAG_NAME (TAG_P CONFIG)) as [ps|]; [|done].
  destruct (scan_pages ps) as [pages|] eqn:Hp; [|done].
  intros [= <-]. exists t, al, rating, gl, pages, n.
  split_and!; try done. by eapply scan_pages_shape.
Qed.

(** X10. The record returned is empty exactly when a step of the extraction
    raised: an extraction that went through never gives the empty record. *)
Theorem empty_record_iff_failure (driver : WebDriver) (url : string) :
  get_goodreads_book_data CONFIG driver url = Return ∅ <->
  is_Return (get_goodreads_book_data_try CONFIG driver url) = false.
Proof.
  rewrite get_goodreads_book_data_cases.
  destruct (get_goodreads_book_data_try CONFIG driver url) as [d|e] eqn:Htry;
    simpl; [|done].
  split; [|done]. intros [= ->]. exfalso.
  destruct (extracted_record_shape_aux driver url ∅ Htry) as (t & Ht).
  by rewrite lookup_empty in Ht.
Qed.


(** X11. When the rating-metadata text does not contain ["ratings"], the count
    is read from the whole text: the extraction gives the empty record
    unless the text as a whole, commas removed, is a number. *)
Theorem rating_text_without_delimiter (driver : WebDriver) (url : string)
    (page : Page) (el : WebElement) :
  get driver url = Return page ->
  find_element page CSS_SELECTOR (RATING_META_SELECTOR CONFIG) = Return el ->
  Str.contains "ratings" (Str.strip (text el)) = false ->
  parse_ratings_count (VStr (Str.strip (text el)))
    = Str.int (Str.replace "," "" (Str.strip (text el))) /\
  (Str.int (Str.replace "," "" (Str.strip (text el))) = Raise ValueError ->
   get_goodreads_book_data CONFIG driver url = Return ∅).
Proof.
  intros Hget Hel Hno.
  assert (Hparse : parse_ratings_count (VStr (Str.strip (text el)))
            = Str.int (Str.replace "," "" (Str.strip (text el)))).
  { unfold parse_ratings_count. rewrite split_absent by done. simpl.
    by rewrite strip_idemp. }
  split; [done|]. intros Hint.
  rewrite get_goodreads_book_data_cases.
  destruct (get_goodreads_book_data_try CONFIG driver url) as [d|e] eqn:Htry;
    [|done].
  destruct (get_goodreads_book_data_try_fields _ _ _ _ _ Hget Htry)
    as (rt & n & _ & _ & Hrt & Hn & _).
  rewrite (safe_get_text_single _ _ _ Hel) in Hrt. injection Hrt as <-.
  by rewrite Hparse, Hint in Hn.
Qed.








(** X13. The title is the gate of the extraction: when the wait for the title
    element runs out, or the title element is not found, the record returned
    is the empty one, whatever else the page holds. *)
Theorem no_title_empty_record (driver : WebDriver) (url : string)
    (page : Page) (e : exn) :
  get driver url = Return page ->
  wait_presence page 10 CSS_SELECTOR (BOOK_PAGE_SELECTOR CONFIG) = Raise e \/
  find_element page CSS_SELECTOR (BOOK_PAGE_SELECTOR CONFIG) = Raise e ->
  get_goodreads_book_data CONFIG driver url = Return ∅.
Proof.
  intros Hget Hgate. rewrite get_goodreads_book_data_cases.
  destruct (get_goodreads_book_data_try CONFIG driver url) as [d|] eqn:Htry;
    [exfalso|done].
  revert Htry. unfold get_goodreads_book_data_try. rewrite Hget. simpl.
  destruct Hgate as [Hwait|Hfind].
  - unfold wait_scroll_and_expand. by rewrite Hwait.
  - destruct (wait_scroll_and_expand CONFIG page); [|done]. simpl.
    destruct (safe_get_text page _ (GENRE_SELECTOR CONFIG) _ _); [|done]. simpl.
    assert (Htitle : safe_get_text page CSS_SELECTOR (BOOK_PAGE_SELECTOR CONFIG)
                       "text" false = Raise e)
      by (unfold safe_get_text; by rewrite Hfind).
    by rewrite Htitle.
Qed.

End MoreExtraction.

(** ** More on the pipeline *)

Section MorePipeline.
Context `{PyFloatOps} (CONFIG : Config).

Lemma writerow_raises (fieldnames : list string) (rowdict : gmap string value) :
  writerow fieldnames rowdict = Raise ValueError <->
  exists key, is_Some (rowdict !! key) /\ key ∉ fieldnames.
Proof.
  unfold writerow. case_bool_decide as Hsub.
  - split; [done|]. intros (key & Hkey & Hnot). exfalso. apply Hnot.
    apply elem_of_dom in Hkey. apply Hsub in Hkey.
    by apply elem_of_list_to_set in Hkey.
  - split; [intros _|done].
    assert (Hex : Exists (fun key => key ∉ fieldnames) (elements (dom rowdict))).
    { apply not_Forall_Exists; [apply _|]. intros Hall. apply Hsub.
      intros key Hkey. apply elem_of_list_to_set.
      rewrite Forall_forall in Hall. by apply Hall, elem_of_elements. }
    apply Exists_exists in Hex as (key & Hkey & Hnot).
    exists key. split; [|done]. by apply elem_of_dom, elem_of_elements.
Qed.

(** [writerow] raises [ValueError] exactly when the record has a key that
    is no field name. Otherwise it gives one cell for every field name, in
    the order of the field names: the value of the record under that name,
    and the empty string when the record has no such key. *)
Theorem writerow_cells (fieldnames : list string) (rowdict : gmap string value) :
  (writerow fieldnames rowdict = Raise ValueError <->
   exists key, is_Some (rowdict !! key) /\ key ∉ fieldnames) /\
  (forall row, writerow fieldnames rowdict = Return row ->
     length row = length fieldnames /\
     forall i key, fieldnames !! i = Some key ->
       row !! i = Some (match rowdict !! key with
                        | Some v => v
                        | None => VStr ""
                        end)).
Proof.
  split; [apply writerow_raises|].
  intros row. unfold writerow. case_bool_decide; [|done]. intros [= <-].
  split; [by rewrite length_map|].
  intros i key Hi. rewrite list_lookup_fmap, Hi. simpl.
  by destruct (rowdict !! key).
Qed.

(** X14. [flatten_genres] turns a list of genres into one string, the names
    joined by [", "], and touches nothing else: afterwards the genres are
    never a list, every other key has the value it had, the keys are the
    same, and flattening twice is flattening once. *)
Theorem flatten_genres_only_genres (info : gmap string value) :
  (forall l, dict_get info "genres" = VList l ->
     dict_get (flatten_genres info) "genres" = VStr (Str.join ", " l)) /\
  (forall l, dict_get (flatten_genres info) "genres" <> VList l) /\
  (forall key, key <> "genres" -> flatten_genres info !! key = info !! key) /\
  dom (flatten_genres info) = dom info /\
  flatten_genres (flatten_genres info) = flatten_genres info.
Proof.
  destruct (info !! "genres") as [v|] eqn:Hg.
  - destruct v as [| | | |l];
      try (assert (Hsame : flatten_genres info = info)
             by (unfold flatten_genres, dict_get; by rewrite Hg);
           rewrite !Hsame; unfold dict_get; rewrite Hg; by split_and!).
    assert (Hflat : flatten_genres info = <["genres" := VStr (Str.join ", " l)]> info).
    { unfold flatten_genres, dict_get. by rewrite Hg. }
    rewrite Hflat. unfold dict_get. rewrite Hg, lookup_insert_eq. simpl.
    split_and!.
    + by intros l' [= <-].
    + done.
    + intros key Hkey. by rewrite lookup_insert_ne.
    + by rewrite dom_insert_lookup_L.
    + unfold flatten_genres, dict_get. by rewrite lookup_insert_eq.
  - assert (Hsame : flatten_genres info = info)
      by (unfold flatten_genres, dict_get; by rewrite Hg).
    rewrite !Hsame. unfold dict_get. rewrite Hg. by split_and!.
Qed.

Lemma writerow_empty :
  writerow (CSV_FIELDNAMES CONFIG) (flatten_genres ∅) = Return (empty_row CONFIG).
Proof.
  unfold writerow, flatten_genres, dict_get. rewrite lookup_empty. simpl.
  rewrite bool_decide_eq_true_2
    by (rewrite dom_empty_L; apply empty_subseteq).
  unfold empty_row. f_equal.
Qed.

Lemma record_of_failed (driver : WebDriver) (book_id : Z) :
  is_Return (get_goodreads_book_data_try CONFIG driver
               (details_url CONFIG book_id)) = false ->
  record_of CONFIG driver book_id = ∅.
Proof.
  unfold record_of. by destruct (get_goodreads_book_data_try CONFIG driver _).
Qed.

Lemma record_of_full (driver : WebDriver) (book_id : Z) (key : string) :
  is_Return (get_goodreads_book_data_try CONFIG driver
               (details_url CONFIG book_id)) = true ->
  key ∈ record_keys ->
  is_Some (flatten_genres (record_of CONFIG driver book_id) !! key).
Proof.
  unfold record_of.
  destruct (get_goodreads_book_data_try CONFIG driver _) as [d|] eqn:Htry;
    [|done].
  intros _ Hkey. apply elem_of_dom.
  assert (Hdom : dom (flatten_genres d) = dom d).
  { unfold flatten_genres, dict_get.
    destruct (d !! "genres") as [v|] eqn:Hg; simpl; [|done].
    destruct v; try done. by rewrite dom_insert_lookup_L. }
  rewrite Hdom.
  destruct (get driver (details_url CONFIG book_id)) as [page|] eqn:Hget.
  - destruct (get_goodreads_book_data_try_fields _ _ _ _ _ Hget Htry)
      as (_ & _ & _ & _ & _ & _ & _ & _ & _ & _ & ->).
    by apply elem_of_list_to_set.
  - unfold get_goodreads_book_data_try in Htry. by rewrite Hget in Htry.
Qed.

(** X15. When a key of the records is missing from the configured field names,
    the run gets past the identifiers whose extraction fails, writing their
    empty rows, and ends with [ValueError] at the first identifier whose
    extraction goes through, before its row is written. *)
Theorem missing_field_name_aborts (driver : WebDriver) (failed rest : list Z)
    (book_id : Z) (key : string) :
  key ∈ record_keys ->
  key ∉ CSV_FIELDNAMES CONFIG ->
  Forall (fun id => is_Return (get_goodreads_book_data_try CONFIG driver
                                 (details_url CONFIG id)) = false) failed ->
  is_Return (get_goodreads_book_data_try CONFIG driver
               (details_url CONFIG book_id)) = true ->
  for_each_book CONFIG driver (failed ++ book_id :: rest) =
  Ended (flat_map (fun id => [EExtract (details_url CONFIG id);
                              EWriteRow (empty_row CONFIG); EFlush]) failed
         ++ [EExtract (details_url CONFIG book_id)])
        (Raise ValueError).
Proof.
  intros Hkey Hmissing Hfailed Hgood.
  induction Hfailed as [|id failed Hid _ IH].
  - simpl app. rewrite for_each_book_cons.
    assert (Hraise : writerow (CSV_FIELDNAMES CONFIG)
              (flatten_genres (record_of CONFIG driver book_id))
            = Raise ValueError).
    { apply writerow_raises. exists key. split; [|done].
      by apply record_of_full. }
    by rewrite Hraise.
  - simpl app. rewrite for_each_book_cons, (record_of_failed _ _ Hid).
    by rewrite writerow_empty, IH.
Qed.

Lemma for_each_book_returned (driver : WebDriver) (ids : list Z)
    (tr : list event) (u : unit) :
  for_each_book CONFIG driver ids = Ended tr (Return u) ->
  tr = flat_map (fun book_id =>
         [EExtract (details_url CONFIG book_id);
          EWriteRow (book_row CONFIG driver book_id); EFlush]) ids.
Proof.
  revert tr. induction ids as [|book_id ids IH]; intros tr.
  - by intros [= <-].
  - rewrite for_each_book_cons.
    destruct (writerow _ _) as [row|e] eqn:Hrow; [|done].
    destruct (for_each_book CONFIG driver ids) as [|tr' r]; [done|].
    intros [= <- ->]. rewrite (IH tr' eq_refl).
    unfold writerow in Hrow. case_bool_decide; [|done].
    by injection Hrow as <-.
Qed.

Lemma for_each_book_ok (driver : WebDriver) (ids : list Z) :
  Forall (fun key => key ∈ CSV_FIELDNAMES CONFIG) record_keys ->
  for_each_book CONFIG driver ids =
  Ended (flat_map (fun book_id =>
           [EExtract (details_url CONFIG book_id);
            EWriteRow (book_row CONFIG driver book_id); EFlush]) ids)
        (Return tt).
Proof.
  intros Hfields. induction ids as [|book_id ids IH]; [done|].
  rewrite for_each_book_cons, writerow_book by done. by rewrite IH.
Qed.

Lemma rows_of_triples (driver : WebDriver) (ids : list Z) :
  rows_of (flat_map (fun book_id =>
             [EExtract (details_url CONFIG book_id);
              EWriteRow (book_row CONFIG driver book_id); EFlush]) ids)
  = map (book_row CONFIG driver) ids.
Proof. induction ids as [|book_id ids IH]; simpl; [done|]. by f_equal. Qed.

(** X16. A run that ends normally has discovered exactly 150 identifiers,
    pairwise distinct, and has written, between the header and
    [driver.quit], the row of each of them in the order of discovery: 150
    rows, each one flushed. *)
Theorem completed_run_writes_150_rows (fuel : nat) (driver : WebDriver)
    (tr : list event) :
  main CONFIG fuel driver = Ended tr (Return tt) ->
  exists ids,
    get_top_goodreads_book_ids CONFIG fuel driver 150 = Some (Return ids) /\
    length ids = 150%nat /\
    NoDup ids /\
    tr = [EOpen (OUTPUT_CSV_PATH CONFIG); EWriteHeader (CSV_FIELDNAMES CONFIG);
          EInitDriver]
         ++ flat_map (fun book_id =>
              [EExtract (details_url CONFIG book_id);
               EWriteRow (book_row CONFIG driver book_id); EFlush]) ids
         ++ [EQuit; EClose] /\
    rows_of tr = map (book_row CONFIG driver) ids.
Proof.
  rewrite main_cases. simpl.
  destruct (get_top_goodreads_book_ids CONFIG fuel driver 150)
    as [[ids|e]|] eqn:Hids; [|done..].
  destruct (for_each_book CONFIG driver ids) as [|tr' [[]|e]] eqn:Hloop;
    [done| |done].
  intros [= <-]. exists ids.
  apply for_each_book_returned in Hloop as ->.
  unfold get_top_goodreads_book_ids in Hids.
  destruct (while_pages_returns CONFIG driver 150 fuel 0 ids)
    as (k & _ & _ & Heq & Hge).
  { intros j Hj. lia. }
  { exact Hids. }
  split_and!; [done| | |done|].
  - rewrite Heq, length_take in *. lia.
  - rewrite Heq. eapply sublist_NoDup; [apply NoDup_first_seen|apply sublist_take].
  - simpl. unfold rows_of. rewrite omap_app. simpl.
    rewrite app_nil_r. apply rows_of_triples.
Qed.

(** X17. However a run ends, the output file is opened first, the header is
    written right after it and once, and the file is closed last: between
    the start of the browser and the closing of the file the trace holds
    only extractions, rows, flushes and [driver.quit]. *)
Theorem file_is_always_closed (fuel : nat) (driver : WebDriver)
    (tr : list event) (r : result unit) :
  main CONFIG fuel driver = Ended tr r ->
  exists mid,
    tr = EOpen (OUTPUT_CSV_PATH CONFIG) :: EWriteHeader (CSV_FIELDNAMES CONFIG)
         :: EInitDriver :: mid ++ [EClose] /\
    Forall (fun e => match e with
                     | EExtract _ | EWriteRow _ | EFlush | EQuit => True
                     | _ => False
                     end) mid.
Proof.
  rewrite main_cases. simpl.
  destruct (get_top_goodreads_book_ids CONFIG fuel driver 150) as [[ids|e]|];
    [| |done].
  - destruct (for_each_book_trace CONFIG driver ids) as (tr' & r' & -> & Htr).
    assert (Hloop : Forall (fun e => match e with
                     | EExtract _ | EWriteRow _ | EFlush | EQuit => True
                     | _ => False
                     end) tr').
    { induction Htr; by repeat constructor. }
    destruct r' as [[]|e]; intros [= <- <-].
    + exists (tr' ++ [EQuit]). rewrite <- app_assoc. split; [done|].
      apply Forall_app. split; [done|]. by repeat constructor.
    + by exists tr'.
  - intros [= <- <-]. exists []. split; [done|constructor].
Qed.

End MorePipeline.

(** ** The dashboard reads what the scraper wrote *)

Section DashboardProps.
Import Dashboard.

Lemma contains_char_app (x : ascii) (a b : string) :
  Str.contains (String x "") (a +:+ b) =
  Str.contains (String x "") a || Str.contains (String x "") b.
Proof.
  induction a as [|c a IH].
  - rewrite app_nil_l_str. by destruct b.
  - rewrite app_cons, !contains_char_cons, IH. by rewrite orb_assoc.
Qed.

Lemma strip_fixed_prefix (w s : string) :
  all_space w = true -> Str.strip s = s -> Str.strip (w +:+ s) = s.
Proof. intros Hw Hs. by rewrite strip_space_prefix. Qed.

Lemma genres_list_join (l : list string) (w : string) :
  l <> [] ->
  Forall (fun s => Str.strip s = s /\ Str.contains "," s = false) l ->
  all_space w = true -> Str.contains "," w = false ->
  map Str.strip (Str.split "," (w +:+ Str.join ", " l)) = l.
Proof.
  intros Hne Hl. revert w. induction Hl as [|s l [Hs Hc] Hl IH]; [done|].
  intros w Hw Hwc. destruct l as [|s' l].
  - change (Str.join ", " [s]) with s.
    rewrite split_absent by (by rewrite contains_char_app, Hwc, Hc).
    simpl. by rewrite strip_fixed_prefix.
  - change (Str.join ", " (s :: s' :: l))
      with (s +:+ String "," (" " +:+ Str.join ", " (s' :: l))).
    rewrite <- app_assoc_str.
    rewrite split_char_app by (by rewrite contains_char_app, Hwc, Hc).
    simpl map. rewrite strip_fixed_prefix by done.
    f_equal. by apply IH.
Qed.

(** X18. The dashboard's splitting undoes the scraper's joining, on the string
    itself: for a list of genres that is not empty, whose names are stripped
    and hold no comma, splitting the names joined by [", "] at the commas
    and stripping the pieces gives the list again. The statement is on a
    cell that reaches the dashboard as the string that was joined ([CStr]);
    what the CSV file and [pd.read_csv] do to a cell in between is not part
    of it (a cell such as ["NA"] is read as NaN, for which
    [n_genres_counts_commas] gives [["nan"]]). *)
Theorem genres_round_trip (l : list string) :
  l <> [] ->
  Forall (fun s => Str.strip s = s /\ Str.contains "," s = false) l ->
  genres_list (CStr (Str.join ", " l)) = l /\
  n_genres (CStr (Str.join ", " l)) = length l.
Proof.
  intros Hne Hl.
  assert (Heq : genres_list (CStr (Str.join ", " l)) = l).
  { unfold genres_list. simpl str.
    rewrite <- (app_nil_l_str (Str.join ", " l)).
    by apply genres_list_join. }
  split; [done|]. unfold n_genres. by rewrite Heq.
Qed.

(** X19. The number of genres the dashboard counts for a cell is one more than
    the number of commas of its text: it is never zero, and a book without
    genres, whose field is empty, counts for one genre. *)
Theorem n_genres_counts_commas (x : cell) :
  n_genres x = S (count_char "," (str x)) /\
  genres_list (CStr "") = [""] /\
  genres_list CNaN = ["nan"].
Proof.
  split; [|done]. unfold n_genres, genres_list, Str.split.
  by rewrite length_map, length_split_go_char.
Qed.

Lemma count_genre_lookup (counts : gmap string Z) (g g' : string) :
  default 0 (count_genre counts g !! g') =
  default 0 (counts !! g') + (if bool_decide (g = g') then 1 else 0).
Proof.
  unfold count_genre. case_bool_decide as Hg.
  - subst. by rewrite lookup_insert_eq.
  - rewrite lookup_insert_ne by done. lia.
Qed.

Lemma count_list_lookup (l : list string) (counts : gmap string Z) (g : string) :
  default 0 (fold_left count_genre l counts !! g) =
  default 0 (counts !! g) + Z.of_nat (length (filter (fun g' => g' = g) l)).
Proof.
  revert counts. induction l as [|g' l IH]; intros counts; simpl; [lia|].
  rewrite IH, count_genre_lookup, filter_cons.
  case_bool_decide; case_decide; simpl; try done; lia.
Qed.

Lemma count_list_positive (l : list string) (counts : gmap string Z) (g : string) :
  (forall g' n, counts !! g' = Some n -> 0 < n) ->
  forall n, fold_left count_genre l counts !! g = Some n -> 0 < n.
Proof.
  revert counts. induction l as [|g' l IH]; intros counts Hpos; simpl;
    [intros n; apply Hpos|].
  apply IH. intros g'' n. unfold count_genre.
  destruct (decide (g' = g'')) as [->|Hne].
  - rewrite lookup_insert_eq. intros [= <-].
    destruct (counts !! g'') as [m|] eqn:Hm; simpl; [|lia].
    specialize (Hpos _ _ Hm). lia.
  - rewrite lookup_insert_ne by done. apply Hpos.
Qed.

Lemma fold_genre_lists (column : list (list string)) (counts : gmap string Z) :
  fold_left (fun counts genre_list => fold_left count_genre genre_list counts)
    column counts
  = fold_left count_genre (concat column) counts.
Proof.
  revert counts. induction column as [|l column IH]; intros counts; [done|].
  simpl. by rewrite IH, fold_left_app.
Qed.

(** X20. After the counting loop, the count of a genre is the number of its
    occurrences in all the lists of the column, and a genre has an entry
    exactly when it occurs. *)
Theorem genre_counts_occurrences (column : list (list string)) (g : string) :
  genre_counts column !! g =
  (if bool_decide (g ∈ concat column)
   then Some (Z.of_nat (length (filter (fun g' => g' = g) (concat column))))
   else None).
Proof.
  unfold genre_counts. rewrite fold_genre_lists.
  pose proof (count_list_lookup (concat column) ∅ g) as Hcount.
  pose proof (count_list_positive (concat column) ∅ g) as Hpos.
  rewrite lookup_empty in Hcount. simpl in Hcount.
  destruct (fold_left count_genre (concat column) ∅ !! g) as [n|] eqn:Hg;
    simpl in Hcount.
  - assert (0 < n) by (eapply Hpos; [by intros ? ? ?%lookup_empty_Some|done]).
    rewrite bool_decide_eq_true_2; [by rewrite Hcount|].
    destruct (filter (fun g' => g' = g) (concat column)) as [|y l] eqn:Hf;
      [simpl in *; lia|].
    assert (Hy : y ∈ filter (fun g' => g' = g) (concat column))
      by (rewrite Hf; apply list_elem_of_here).
    by apply list_elem_of_filter in Hy as [-> Hy].
  - rewrite bool_decide_eq_false_2; [done|]. intros Hin.
    assert (Hy : g ∈ filter (fun g' => g' = g) (concat column))
      by (by apply list_elem_of_filter).
    destruct (filter _ _); [by apply elem_of_nil in Hy|simpl in *; lia].
Qed.

End DashboardProps.

(** ** Counts and page numbers in general *)

Lemma int_digits_number (s : string) (acc : Z) :
  all_decimal s = true -> Str.int_digits acc s = Some (number acc s).
Proof.
  revert acc. induction s as [|c s IH]; intros acc; simpl; [done|].
  intros [Hc Hs]%andb_true_iff. rewrite Hc. by apply IH.
Qed.

Lemma int_number (s : string) :
  s <> "" -> all_decimal s = true ->
  Str.int s =
  if Z.of_nat (String.length s) <=? Str.int_max_str_digits
  then Return (number 0 s) else Raise ValueError.
Proof.
  destruct s as [|c s]; [done|]. intros _ Hall.
  pose proof Hall as Hall'. simpl in Hall'.
  apply andb_true_iff in Hall' as [Hc Hs].
  rewrite (int_plain c s (isdecimal_isdigit c Hc)).
  rewrite (count_decimal_length _ Hall).
  rewrite (Z.ltb_antisym (Z.of_nat (String.length (String c s)))).
  simpl Str.int_unsigned. rewrite Hc, int_digits_number by done.
  by destruct (_ <=? _).
Qed.

Lemma all_chars_app (P : ascii -> bool) (a b : string) :
  all_chars P (a +:+ b) = all_chars P a && all_chars P b.
Proof.
  induction a as [|c a IH]; [done|].
  rewrite app_cons. simpl. by rewrite IH, andb_assoc.
Qed.

Lemma all_chars_rev (P : ascii -> bool) (s : string) :
  all_chars P (String.rev s) = all_chars P s.
Proof.
  induction s as [|c s IH]; [done|].
  rewrite rev_cons, all_chars_app, IH. simpl.
  by rewrite andb_true_r, andb_comm.
Qed.

Lemma lstrip_no_space (s : string) :
  all_chars (fun c => negb (Str.isspace c)) s = true -> Str.lstrip s = s.
Proof.
  destruct s as [|c s]; [done|]. simpl.
  intros [Hc _]%andb_true_iff. by destruct (Str.isspace c).
Qed.

Lemma strip_no_space (s : string) :
  all_chars (fun c => negb (Str.isspace c)) s = true -> Str.strip s = s.
Proof.
  intros Hs. unfold Str.strip. rewrite (lstrip_no_space s Hs).
  rewrite lstrip_no_space by (by rewrite all_chars_rev).
  apply rev_rev.
Qed.

Lemma rev_app_distr_str (a b : string) :
  String.rev (a +:+ b) = String.rev b +:+ String.rev a.
Proof.
  induction a as [|c a IH].
  - by rewrite app_nil_l_str, app_nil_r_str.
  - by rewrite app_cons, !rev_cons, IH, app_assoc_str.
Qed.

Lemma all_space_rev (w : string) : all_space (String.rev w) = all_space w.
Proof.
  assert (Heq : forall s, all_space s = all_chars Str.isspace s).
  { induction s as [|c s IH]; [done|]. simpl. by rewrite IH. }
  by rewrite !Heq, all_chars_rev.
Qed.

Lemma strip_space_suffix (s w : string) :
  all_space w = true -> Str.strip (s +:+ w) = Str.strip s.
Proof.
  intros Hw. rewrite !strip_rstrip.
  destruct (Str.lstrip s) as [|c t] eqn:Hs.
  - (* [s] is all whitespace, and so is [s +:+ w] *)
    assert (Hall : forall u, Str.lstrip u = "" -> all_space u = true).
    { induction u as [|x u IH]; [done|]. simpl.
      destruct (Str.isspace x); [auto|done]. }
    assert (Hnil : forall u, all_space u = true -> Str.lstrip u = "").
    { induction u as [|x u IH]; [done|]. simpl.
      intros [-> Hu]%andb_true_iff. auto. }
    rewrite Hnil; [done|].
    assert (Happ : forall a b, all_space a = true -> all_space b = true ->
                     all_space (a +:+ b) = true).
    { induction a as [|x a IH]; [done|]. intros b. rewrite app_cons. simpl.
      intros [-> Ha]%andb_true_iff Hb. by apply IH. }
    apply Happ; [by apply Hall|done].
  - assert (Hl : Str.lstrip (s +:+ w) = String c t +:+ w).
    { clear Hw. revert Hs. induction s as [|x s IH]; [done|].
      rewrite app_cons. simpl. destruct (Str.isspace x) eqn:Hx; [done|].
      by intros [= <- <-]. }
    rewrite Hl. unfold rstrip.
    by rewrite rev_app_distr_str, lstrip_space_prefix by (by rewrite all_space_rev).
Qed.

Lemma join_cons (sep x : string) (l : list string) :
  l <> [] -> Str.join sep (x :: l) = x +:+ sep +:+ Str.join sep l.
Proof. by destruct l. Qed.

Lemma join_split_go_comma (cur s : string) :
  Str.join "" (Str.split_go "," 0 cur s) = String.rev cur +:+ remove_char "," s.
Proof.
  revert cur. induction s as [|c s IH]; intros cur.
  { simpl. by rewrite app_nil_r_str. }
  rewrite split_go_char. simpl remove_char. case_bool_decide as Hc.
  - destruct (split_go_cons "," 0 "" s) as (x & l & Hx).
    rewrite join_cons by (by rewrite Hx). by rewrite IH.
  - by rewrite IH, rev_cons, app_assoc_str.
Qed.

Lemma replace_comma (s : string) :
  Str.replace "," "" s = remove_char "," s.
Proof. unfold Str.replace, Str.split. by rewrite join_split_go_comma. Qed.

Lemma prefix_step (a b : ascii) (s1 s2 : string) :
  String.prefix (String a s1) (String b s2) =
  if ascii_dec a b then String.prefix s1 s2 else false.
Proof. reflexivity. Qed.

Lemma prefix_app (s b : string) : String.prefix s (s +:+ b) = true.
Proof.
  induction s as [|c s IH]; [by destruct b|].
  rewrite app_cons, prefix_step. by destruct (ascii_dec c c).
Qed.

Lemma split_go_first (x : ascii) (sep' cur a b : string) :
  all_chars (fun c => negb (bool_decide (x = c))) a = true ->
  exists rest,
    Str.split_go (String x sep') 0 cur (a +:+ String x sep' +:+ b) =
    (String.rev cur +:+ a) :: rest.
Proof.
  revert cur. induction a as [|c a IH]; intros cur.
  - intros _. rewrite app_nil_l_str, app_cons, split_go_step.
    rewrite <- app_cons, prefix_app, app_nil_r_str. by eexists.
  - simpl all_chars. intros [Hc Ha]%andb_true_iff.
    rewrite app_cons, split_go_step, prefix_step.
    destruct (ascii_dec x c) as [->|_].
    + by rewrite bool_decide_eq_true_2 in Hc.
    + destruct (IH (String c cur) Ha) as [rest ->].
      exists rest. by rewrite rev_cons, app_assoc_str.
Qed.

Lemma digit_or_comma_plain (c : ascii) :
  digit_or_comma c = true ->
  Str.isspace c = false /\ "r"%char <> c.
Proof. unfold digit_or_comma. ascii_cases c. Qed.

Lemma all_chars_impl (P Q : ascii -> bool) (s : string) :
  (forall c, P c = true -> Q c = true) ->
  all_chars P s = true -> all_chars Q s = true.
Proof.
  intros HPQ. induction s as [|c s IH]; [done|]. simpl.
  intros [Hc Hs]%andb_true_iff. by rewrite (HPQ c Hc), IH.
Qed.

Lemma all_decimal_remove_comma (s : string) :
  all_chars digit_or_comma s = true -> all_decimal (remove_char "," s) = true.
Proof.
  induction s as [|c s IH]; [done|]. simpl.
  intros [Hc Hs]%andb_true_iff. case_bool_decide as Hcomma; [by apply IH|].
  simpl. rewrite (IH Hs), andb_true_r.
  unfold digit_or_comma in Hc. apply orb_true_iff in Hc as [Hc|Hc]; [done|].
  apply bool_decide_eq_true_1 in Hc. by subst.
Qed.

Lemma isdecimal_plain (c : ascii) :
  Str.isdecimal c = true ->
  Str.isspace c = false /\ Str.lower_char c = c.
Proof. ascii_cases c. Qed.

Lemma lower_app (a b : string) :
  Str.lower (a +:+ b) = Str.lower a +:+ Str.lower b.
Proof. induction a as [|c a IH]; [done|]. rewrite app_cons. simpl. by rewrite IH. Qed.

Lemma lower_decimal (d : string) : all_decimal d = true -> Str.lower d = d.
Proof.
  induction d as [|c d IH]; [done|]. simpl.
  intros [Hc Hd]%andb_true_iff.
  destruct (isdecimal_plain c Hc) as [_ ->]. by rewrite IH.
Qed.

Lemma contains_app_r (sep a b : string) :
  Str.contains sep b = true -> Str.contains sep (a +:+ b) = true.
Proof.
  intros Hb. induction a as [|c a IH]; [done|].
  rewrite app_cons, contains_step, IH. apply orb_true_r.
Qed.

Lemma split_ws_go_first (cur d rest : string) (sp : ascii) :
  all_decimal d = true -> Str.isspace sp = true ->
  String.rev cur +:+ d <> "" ->
  Str.split_ws_go cur (d +:+ String sp rest) =
  (String.rev cur +:+ d) :: Str.split_ws_go "" rest.
Proof.
  intros Hd Hsp. revert cur Hd. induction d as [|c d IH]; intros cur Hd Hne.
  - rewrite app_nil_l_str, app_nil_r_str in *. simpl. rewrite Hsp.
    destruct cur; [done|]. done.
  - simpl in Hd. apply andb_true_iff in Hd as [Hc Hd].
    destruct (isdecimal_plain c Hc) as [Hns _].
    rewrite app_cons. simpl. rewrite Hns.
    rewrite (IH (String c cur) Hd).
    + by rewrite rev_cons, app_assoc_str.
    + rewrite rev_cons, app_assoc_str. by destruct (String.rev cur).
Qed.

Lemma strip_fixed (x : string) :
  Str.lstrip x = x -> Str.lstrip (String.rev x) = String.rev x ->
  Str.strip x = x.
Proof. intros H1 H2. unfold Str.strip. by rewrite H1, H2, rev_rev. Qed.

Section Numbers.
Context `{PyFloatOps}.

(** X21. A rating-metadata text that is a group of decimal digits and commas,
    with a digit in it, followed by [" ratings"], gives the count its digits
    denote: the commas are dropped and nothing else is lost. This holds up
    to [Str.int_max_str_digits] digits; with more, [int] raises
    [ValueError]. *)
Theorem ratings_count_of_digits (s : string) :
  all_chars digit_or_comma s = true ->
  remove_char "," s <> "" ->
  parse_ratings_count (VStr (s +:+ " ratings")) =
  if Z.of_nat (String.length (remove_char "," s)) <=? Str.int_max_str_digits
  then Return (number 0 (remove_char "," s))
  else Raise ValueError.
Proof.
  intros Hs Hne. unfold parse_ratings_count, Str.split.
  destruct (split_go_first "r" "atings" "" (s +:+ " ") "") as [rest Hsplit].
  { rewrite all_chars_app. simpl. rewrite andb_true_r.
    eapply all_chars_impl; [|exact Hs]. intros c Hc.
    destruct (digit_or_comma_plain c Hc) as [_ Hr].
    by rewrite bool_decide_eq_false_2. }
  rewrite app_nil_r_str, app_assoc_str in Hsplit.
  change (" " +:+ "ratings") with " ratings" in Hsplit.
  change (String.rev "" +:+ s +:+ " ") with (s +:+ " ") in Hsplit.
  rewrite Hsplit. simpl.
  rewrite strip_space_suffix by done.
  rewrite strip_no_space.
  - rewrite replace_comma. apply int_number; [done|].
    by apply all_decimal_remove_comma.
  - eapply all_chars_impl; [|exact Hs]. intros c Hc.
    by destruct (digit_or_comma_plain c Hc) as [-> _].
Qed.

(** X22. When the first [p] element with the marker reads a group of decimal
    digits followed by [" pages"], the scan returns the number the digits
    denote, whatever the elements after it are. This holds up to
    [Str.int_max_str_digits] digits; with more, [int] raises [ValueError]. *)
Theorem pages_of_digits (pre post : list WebElement) (p : WebElement)
    (d : string) :
  Forall (fun q => has_marker q = false) pre ->
  text p = d +:+ " pages" ->
  d <> "" -> all_decimal d = true ->
  scan_pages (pre ++ p :: post) =
  if Z.of_nat (String.length d) <=? Str.int_max_str_digits
  then Return (VInt (number 0 d))
  else Raise ValueError.
Proof.
  intros Hpre Htext Hne Hd. rewrite scan_pages_skip by done.
  assert (Hstrip : Str.strip (d +:+ " pages") = d +:+ " pages").
  { apply strip_fixed.
    - destruct d as [|c d]; [done|]. simpl in Hd.
      apply andb_true_iff in Hd as [Hc _].
      destruct (isdecimal_plain c Hc) as [Hns _].
      rewrite app_cons. simpl. by rewrite Hns.
    - by rewrite rev_app_distr_str. }
  assert (Hlower : Str.lower (d +:+ " pages") = d +:+ " pages").
  { by rewrite lower_app, lower_decimal. }
  simpl scan_pages. rewrite Htext, Hstrip, Hlower.
  rewrite contains_app_r by done.
  unfold Str.split_ws.
  change (d +:+ " pages") with (d +:+ String " " "pages").
  rewrite split_ws_go_first by done. simpl.
  rewrite int_number by done. by destruct (_ <=? _).
Qed.

End Numbers.

(** ** More properties on the small site *)

Module MoreExamples.
Import Demo MoreDemo Dashboard.


Lemma discovered_ids_come_from_links_witness :
  get_top_goodreads_book_ids config 2 site 7
    = Some (Return [1; 2; 3; 4; 5; 6; 7]) /\
  (0 <= 6 /\
   exists (j : nat) links link,
     (j < 2)%nat /\
     page_links config site (Z.of_nat (S j)) = Return links /\
     link ∈ links /\ link_id link = Some 6).
Proof.
  assert (Hrun : get_top_goodreads_book_ids config 2 site 7
                 = Some (Return [1; 2; 3; 4; 5; 6; 7]))
    by (vm_compute; reflexivity).
  split; [exact Hrun|].
  apply (discovered_ids_come_from_links config 2 site 7 _ Hrun 6).
  do 5 apply list_elem_of_further. apply list_elem_of_here.
Defined.

Lemma discovery_returns_exactly_target_witness :
  get_top_goodreads_book_ids config 2 site 7
    = Some (Return [1; 2; 3; 4; 5; 6; 7]) /\
  Z.of_nat (length [1; 2; 3; 4; 5; 6; 7]) = 7.
Proof.
  assert (Hrun : get_top_goodreads_book_ids config 2 site 7
                 = Some (Return [1; 2; 3; 4; 5; 6; 7]))
    by (vm_compute; reflexivity).
  split; [exact Hrun|].
  apply (discovery_returns_exactly_target config 2 site 7 _ ltac:(lia) Hrun).
Defined.

Lemma scan_links_appends_witness :
  scan_links (map (element "") [book_href 3; book_href 6; book_href 7; book_href 8])
    [1; 2; 3; 4; 5] 7 = Return [1; 2; 3; 4; 5; 6; 7] /\
  exists new,
    [1; 2; 3; 4; 5; 6; 7] = ([1; 2; 3; 4; 5] ++ new) /\
    (forall id, id ∈ new ->
       (id ∉ [1; 2; 3; 4; 5]) /\
       exists link,
         link ∈ map (element "")
                  [book_href 3; book_href 6; book_href 7; book_href 8] /\
         link_id link = Some id) /\
    NoDup new /\
    (Z.of_nat (length [1; 2; 3; 4; 5]) < 7 ->
     Z.of_nat (length [1; 2; 3; 4; 5; 6; 7]) <= 7).
Proof.
  assert (Hscan : scan_links
            (map (element "") [book_href 3; book_href 6; book_href 7; book_href 8])
            [1; 2; 3; 4; 5] 7 = Return [1; 2; 3; 4; 5; 6; 7])
    by (vm_compute; reflexivity).
  split; [exact Hscan|].
  exact (scan_links_appends _ _ _ _ Hscan).
Defined.

Lemma discovery_raises_page_error_witness :
  page_links config flaky 2 = Raise WebDriverException /\
  get_top_goodreads_book_ids config 5 flaky 150 = Some (Raise WebDriverException).
Proof.
  assert (Hpage : page_links config flaky (Z.of_nat 2) = Raise WebDriverException)
    by (vm_compute; reflexivity).
  split; [exact Hpage|].
  apply (discovery_raises_page_error config 5 1 flaky 150 WebDriverException).
  - intros j Hj. assert (j = 0%nat) as -> by lia.
    eexists. split; [vm_compute; reflexivity|]. repeat constructor.
  - vm_compute. reflexivity.
  - exact Hpage.
  - lia.
Defined.


Lemma no_title_empty_record_witness :
  get site (details_url config 6) = Return blank /\
  wait_presence blank 10 CSS_SELECTOR (BOOK_PAGE_SELECTOR config)
    = Raise TimeoutException /\
  get_goodreads_book_data config site (details_url config 6) = Return ∅.
Proof.
  assert (Hget : get site (details_url config 6) = Return blank)
    by (vm_compute; reflexivity).
  assert (Hwait : wait_presence blank 10 CSS_SELECTOR (BOOK_PAGE_SELECTOR config)
                  = Raise TimeoutException)
    by (vm_compute; reflexivity).
  split; [exact Hget|]. split; [exact Hwait|].
  apply (no_title_empty_record config site _ blank TimeoutException Hget).
  left. exact Hwait.
Defined.

Lemma rating_text_without_delimiter_witness :
  get site (details_url config 3) = Return one_rating /\
  find_element one_rating CSS_SELECTOR (RATING_META_SELECTOR config)
    = Return (element "1 rating" None) /\
  Str.int (Str.replace "," "" (Str.strip "1 rating")) = Raise ValueError /\
  get_goodreads_book_data config site (details_url config 3) = Return ∅.
Proof.
  assert (Hget : get site (details_url config 3) = Return one_rating)
    by (vm_compute; reflexivity).
  assert (Hel : find_element one_rating CSS_SELECTOR (RATING_META_SELECTOR config)
                = Return (element "1 rating" None))
    by (vm_compute; reflexivity).
  assert (Hint : Str.int (Str.replace "," "" (Str.strip "1 rating"))
                 = Raise ValueError)
    by (vm_compute; reflexivity).
  split; [exact Hget|]. split; [exact Hel|]. split; [exact Hint|].
  destruct (rating_text_without_delimiter config site _ one_rating _ Hget Hel)
    as [_ Hempty]; [vm_compute; reflexivity|].
  apply Hempty. exact Hint.
Defined.

Lemma extracted_record_shape_witness :
  exists d,
    get_goodreads_book_data_try config site (details_url config 1) = Return d /\
    exists title names rating genres pages ratings_count,
      d = <["title" := VStr title]> (<["author" := VStr (Str.join ", " names)]>
            (<["rating" := VFloat rating]> (<["genres" := VList genres]>
            (<["pages" := pages]> (<["ratings_count" := VInt ratings_count]> ∅)))))
      /\ Str.strip title = title
      /\ Forall (fun s => s <> "" /\ Str.strip s = s) names
      /\ Forall (fun s => s <> "" /\ Str.strip s = s) genres
      /\ (pages = VNone \/ exists n, pages = VInt n).
Proof.
  assert (Hok : is_Return (get_goodreads_book_data_try config site
                             (details_url config 1)) = true)
    by (vm_compute; reflexivity).
  destruct (get_goodreads_book_data_try config site (details_url config 1))
    as [d|e] eqn:Htry; [|discriminate Hok].
  exists d. split; [reflexivity|].
  exact (extracted_record_shape config site _ d Htry).
Defined.

Lemma missing_field_name_aborts_witness :
  "pages" ∈ record_keys /\
  ("pages" ∉ CSV_FIELDNAMES config_without_pages) /\
  for_each_book config_without_pages site ([6] ++ 1 :: [2]) =
  Ended (flat_map (fun id => [EExtract (details_url config_without_pages id);
                              EWriteRow (empty_row config_without_pages); EFlush])
           [6]
         ++ [EExtract (details_url config_without_pages 1)])
        (Raise ValueError).
Proof.
  assert (Hin : "pages" ∈ record_keys).
  { unfold record_keys. do 4 apply list_elem_of_further. apply list_elem_of_here. }
  assert (Hnot : "pages" ∉ CSV_FIELDNAMES config_without_pages).
  { unfold CSV_FIELDNAMES. simpl. rewrite !not_elem_of_cons.
    repeat split; try discriminate. apply not_elem_of_nil. }
  split; [exact Hin|]. split; [exact Hnot|].
  apply (missing_field_name_aborts config_without_pages site [6] [2] 1 "pages"
           Hin Hnot).
  - repeat constructor.
  - vm_compute. reflexivity.
Defined.

Lemma completed_run_writes_150_rows_witness :
  main config 1 megastore = Ended megastore_trace (Return tt) /\
  exists ids,
    get_top_goodreads_book_ids config 1 megastore 150 = Some (Return ids) /\
    length ids = 150%nat /\
    NoDup ids /\
    megastore_trace =
      [EOpen (OUTPUT_CSV_PATH config); EWriteHeader (CSV_FIELDNAMES config);
       EInitDriver]
      ++ flat_map (fun book_id =>
           [EExtract (details_url config book_id);
            EWriteRow (book_row config megastore book_id); EFlush]) ids
      ++ [EQuit; EClose] /\
    rows_of megastore_trace = map (book_row config megastore) ids.
Proof.
  assert (Hids : get_top_goodreads_book_ids config 1 megastore 150
                 = Some (Return (map Z.of_nat (seq 1 150))))
    by (vm_compute; reflexivity).
  assert (Hrun : main config 1 megastore = Ended megastore_trace (Return tt)).
  { rewrite main_cases, Hids, for_each_book_ok; [reflexivity|].
    apply Forall_forall. intros key Hkey. exact Hkey. }
  split; [exact Hrun|].
  exact (completed_run_writes_150_rows config 1 megastore megastore_trace Hrun).
Defined.

Lemma file_is_always_closed_witness :
  main config 1 offline =
    Ended [EOpen (OUTPUT_CSV_PATH config); EWriteHeader (CSV_FIELDNAMES config);
           EInitDriver; EClose] (Raise WebDriverException) /\
  exists mid,
    [EOpen (OUTPUT_CSV_PATH config); EWriteHeader (CSV_FIELDNAMES config);
     EInitDriver; EClose]
    = EOpen (OUTPUT_CSV_PATH config) :: EWriteHeader (CSV_FIELDNAMES config)
        :: EInitDriver :: mid ++ [EClose] /\
    Forall (fun e => match e with
                     | EExtract _ | EWriteRow _ | EFlush | EQuit => True
                     | _ => False
                     end) mid.
Proof.
  assert (Hrun : main config 1 offline =
    Ended [EOpen (OUTPUT_CSV_PATH config); EWriteHeader (CSV_FIELDNAMES config);
           EInitDriver; EClose] (Raise WebDriverException))
    by reflexivity.
  split; [exact Hrun|].
  exact (file_is_always_closed config 1 offline _ _ Hrun).
Defined.

Lemma genres_round_trip_witness :
  genres_list (CStr (Str.join ", " ["Science Fiction"; "Classics"]))
    = ["Science Fiction"; "Classics"] /\
  n_genres (CStr (Str.join ", " ["Science Fiction"; "Classics"])) = 2%nat.
Proof.
  apply (genres_round_trip ["Science Fiction"; "Classics"]).
  - discriminate.
  - repeat constructor.
Defined.

Lemma ratings_count_of_digits_witness :
  parse_ratings_count (VStr ("1,234,567" +:+ " ratings")) = Return 1234567.
Proof.
  apply (ratings_count_of_digits "1,234,567").
  - reflexivity.
  - discriminate.
Defined.

Lemma pages_of_digits_witness :
  scan_pages ([element "A desert planet." None]
              ++ element ("1024" +:+ " pages") None
              :: [element "12 pages of notes" None])
  = Return (VInt 1024).
Proof.
  apply (pages_of_digits [element "A desert planet." None]
           [element "12 pages of notes" None]
           (element ("1024" +:+ " pages") None) "1024").
  - repeat constructor.
  - reflexivity.
  - discriminate.
  - reflexivity.
Defined.

End MoreExamples.
